(** * Exercise tracker: the four route handlers of [src/index.js]

    The program is an Express application over two Mongoose models,
    [User] and [Exercise].  This development embeds the handlers
    [getUsers], [createUser], [app.post('/api/users/:_id/exercises')] and
    [app.get('/api/users/:_id/logs')] as functions over an explicit
    database state, and proves the properties the specification states
    about them.

    What the source takes from its platform is modelled here once:
    - [Js]: the ECMAScript operations the handlers call (truthiness,
      [parseInt], [new Date(..)], [Date.prototype.toDateString],
      [Array.prototype.slice]);
    - [Env]: what a request cannot decide by itself (the clock, the host's
      time zone, the host's parser for date strings outside the ISO
      date-only form, and whether a storage call is rejected);
    - [User], [Exercise]: the two models with their schemas (lines 13-26),
      collections kept as lists in insertion order.

    Texts are strings of ASCII characters, and the numbers a request
    carries are integers. *)

From Stdlib Require Import ZArith NArith List String Ascii Bool Lia.
From Stdlib Require Import DecimalString.
From Stdlib Require DecimalPos DecimalN.
From Stdlib Require Import Permutation.
Import ListNotations.

Local Open Scope string_scope.
Local Open Scope list_scope.
Local Open Scope Z_scope.

(* ===================================================================== *)
(** ** ECMAScript operations used by the handlers *)
(* ===================================================================== *)

Module Js.

(** A Number that is either NaN or an integer.  [parseInt] and the time
    value of a Date only produce such numbers. *)
Inductive Number :=
| NaN
| Num (z : Z).

(** A Date object is its time value: milliseconds since the epoch, or NaN
    for an Invalid Date. *)
Inductive Date :=
| InvalidDate
| DateAt (t : Z).

(** The values handed to [res.json]. *)
#[warnings="-register-all"]
Inductive Value :=
| VUndefined
| VNull
| VNumber (n : Number)
| VString (s : string)
| VObjectId (i : N)
| VArray (items : list Value)
| VObject (fields : list (string * Value)).

(** ToBoolean: what [x ? a : b] and [!x] test. *)
Definition truthy (v : Value) : bool :=
  match v with
  | VUndefined | VNull => false
  | VNumber NaN => false
  | VNumber (Num z) => negb (z =? 0)
  | VString s => negb (s =? "")%string
  | VObjectId _ | VArray _ | VObject _ => true
  end.

(** An optional String or Number path of a document: [undefined] when
    absent. *)
Definition of_text (p : option string) : Value :=
  match p with
  | None => VUndefined
  | Some s => VString s
  end.

Definition of_number (p : option Z) : Value :=
  match p with
  | None => VUndefined
  | Some z => VNumber (Num z)
  end.

(** Property read [o.k]; [undefined] when the key is missing. *)
Fixpoint lookup (k : string) (fields : list (string * Value)) : Value :=
  match fields with
  | [] => VUndefined
  | (k', v) :: rest => if (k =? k')%string then v else lookup k rest
  end.

Definition get (k : string) (v : Value) : Value :=
  match v with
  | VObject fields => lookup k fields
  | _ => VUndefined
  end.

Definition keys (v : Value) : list string :=
  match v with
  | VObject fields => map fst fields
  | _ => []
  end.

(** *** parseInt(string) with no radix argument *)

Definition code (c : ascii) : Z := Z.of_nat (nat_of_ascii c).

(** White space and line terminators of the ASCII range. *)
Definition is_white_space (c : ascii) : bool :=
  let n := code c in
  ((9 <=? n) && (n <=? 13)) || (n =? 32).

Definition digit_value (c : ascii) : option Z :=
  let n := code c in
  if (48 <=? n) && (n <=? 57) then Some (n - 48)
  else if (97 <=? n) && (n <=? 122) then Some (n - 87)
  else if (65 <=? n) && (n <=? 90) then Some (n - 55)
  else None.

Fixpoint skip_white_space (s : string) : string :=
  match s with
  | String c rest => if is_white_space c then skip_white_space rest else s
  | EmptyString => s
  end.

(** The value of the longest prefix of [s] made of digits of radix [R],
    continuing from [acc]; [None] while no digit has been read. *)
Fixpoint digits_prefix (R : Z) (s : string) (acc : option Z) : option Z :=
  match s with
  | String c rest =>
      match digit_value c with
      | Some d =>
          if d <? R
          then digits_prefix R rest
                 (Some (match acc with Some a => a * R + d | None => d end))
          else acc
      | None => acc
      end
  | EmptyString => acc
  end.

(** The result is the exact value of the digits read.  ECMAScript rounds
    it to the nearest double, which differs from it only beyond [2 ^ 53];
    the handler uses the result in [limit > 0] and as the end index of
    [slice], and an array has fewer than [2 ^ 53] elements, so neither
    distinguishes the two. *)
Definition parseInt (input : string) : Number :=
  let s := skip_white_space input in
  let '(sign, s) :=
    match s with
    | String "-" rest => (-1, rest)
    | String "+" rest => (1, rest)
    | _ => (1, s)
    end in
  let '(R, s) :=
    match s with
    | String "0" (String "x" rest) => (16, rest)
    | String "0" (String "X" rest) => (16, rest)
    | _ => (10, s)
    end in
  match digits_prefix R s None with
  | None => NaN
  | Some m => Num (sign * m)
  end.

(** [n > 0] on a Number: false for NaN. *)
Definition gt0 (n : Number) : bool :=
  match n with
  | NaN => false
  | Num z => 0 <? z
  end.

(** [a.slice(0, n)]: the end index is relative to the end of the array
    when negative, NaN counts as 0, and it is clamped to the length. *)
Definition slice0 {A} (a : list A) (n : Number) : list A :=
  let len := Z.of_nat (List.length a) in
  let final :=
    match n with
    | NaN => 0
    | Num z => if z <? 0 then Z.max (len + z) 0 else Z.min z len
    end in
  firstn (Z.to_nat final) a.

(** *** Days, years and months of a time value (ECMA-262, 21.4.1) *)

Definition msPerDay : Z := 86400000.

Definition Day (t : Z) : Z := t / msPerDay.

Definition is_leap (y : Z) : bool :=
  ((y mod 4 =? 0) && negb (y mod 100 =? 0)) || (y mod 400 =? 0).

Definition DayFromYear (y : Z) : Z :=
  365 * (y - 1970) + (y - 1969) / 4 - (y - 1901) / 100 + (y - 1601) / 400.

(** The largest [y] with [DayFromYear y <= Day t]: the mean year length
    gives an estimate that is off by at most one. *)
Definition YearFromTime (t : Z) : Z :=
  let d := Day t in
  let y := 1970 + (400 * d) / 146097 in
  if d <? DayFromYear y then y - 1
  else if DayFromYear (y + 1) <=? d then y + 1
  else y.

Definition InLeapYear (t : Z) : Z := if is_leap (YearFromTime t) then 1 else 0.

Definition DayWithinYear (t : Z) : Z := Day t - DayFromYear (YearFromTime t).

(** First day (within the year) of month [m] (0 = January) when the year
    has [leap] extra days. *)
Definition month_start (m leap : Z) : Z :=
  match m with
  | 0 => 0
  | 1 => 31
  | 2 => 59 + leap
  | 3 => 90 + leap
  | 4 => 120 + leap
  | 5 => 151 + leap
  | 6 => 181 + leap
  | 7 => 212 + leap
  | 8 => 243 + leap
  | 9 => 273 + leap
  | 10 => 304 + leap
  | 11 => 334 + leap
  | _ => 365 + leap
  end.

Definition MonthFromTime (t : Z) : Z :=
  let d := DayWithinYear t in
  let leap := InLeapYear t in
  if d <? month_start 1 leap then 0
  else if d <? month_start 2 leap then 1
  else if d <? month_start 3 leap then 2
  else if d <? month_start 4 leap then 3
  else if d <? month_start 5 leap then 4
  else if d <? month_start 6 leap then 5
  else if d <? month_start 7 leap then 6
  else if d <? month_start 8 leap then 7
  else if d <? month_start 9 leap then 8
  else if d <? month_start 10 leap then 9
  else if d <? month_start 11 leap then 10
  else 11.

Definition DateFromTime (t : Z) : Z :=
  DayWithinYear t - month_start (MonthFromTime t) (InLeapYear t) + 1.

Definition WeekDay (t : Z) : Z := (Day t + 4) mod 7.

(** MakeDay for a month in 0..11: the day number of [year-month-date]. *)
Definition MakeDay (year month date : Z) : Z :=
  DayFromYear year
  + month_start month (if is_leap year then 1 else 0)
  + date - 1.

Definition DaysInMonth (year month : Z) : Z :=
  let leap := if is_leap year then 1 else 0 in
  month_start (month + 1) leap - month_start month leap.

(** *** Date.prototype.toDateString *)

Definition day_name (w : Z) : string :=
  match w with
  | 0 => "Sun" | 1 => "Mon" | 2 => "Tue" | 3 => "Wed"
  | 4 => "Thu" | 5 => "Fri" | _ => "Sat"
  end.

Definition month_name (m : Z) : string :=
  match m with
  | 0 => "Jan" | 1 => "Feb" | 2 => "Mar" | 3 => "Apr"
  | 4 => "May" | 5 => "Jun" | 6 => "Jul" | 7 => "Aug"
  | 8 => "Sep" | 9 => "Oct" | 10 => "Nov" | _ => "Dec"
  end.

Fixpoint zeros (n : nat) : string :=
  match n with
  | O => ""
  | S k => String "0" (zeros k)
  end.

(** ToZeroPaddedDecimalString(n, minLength) for [0 <= n]. *)
Definition padded (n : Z) (minLength : nat) : string :=
  let digits := NilZero.string_of_uint (N.to_uint (Z.to_N n)) in
  (zeros (minLength - String.length digits) ++ digits)%string.

(** DateString(tv) of a local time value. *)
Definition DateString (t : Z) : string :=
  let y := YearFromTime t in
  (day_name (WeekDay t) ++ " " ++ month_name (MonthFromTime t) ++ " "
   ++ padded (DateFromTime t) 2 ++ " "
   ++ (if (y <? 0)%Z then "-" else "") ++ padded (Z.abs y) 4)%string.

(** *** The ISO date-only form YYYY-MM-DD of Date.parse *)

Definition dec (c : ascii) : option Z :=
  let n := code c in
  if (48 <=? n) && (n <=? 57) then Some (n - 48) else None.

Definition dec2 (a b : ascii) : option Z :=
  match dec a, dec b with
  | Some x, Some y => Some (10 * x + y)
  | _, _ => None
  end.

Definition dec4 (a b c d : ascii) : option Z :=
  match dec2 a b, dec2 c d with
  | Some x, Some y => Some (100 * x + y)
  | _, _ => None
  end.

(** The time value of a text [YYYY-MM-DD] naming a day of the calendar
    (UTC midnight of that day); [None] for any other text. *)
Definition parse_iso_date (s : string) : option Z :=
  match s with
  | String y1 (String y2 (String y3 (String y4 (String "-"
      (String m1 (String m2 (String "-"
        (String d1 (String d2 EmptyString))))))))) =>
      match dec4 y1 y2 y3 y4, dec2 m1 m2, dec2 d1 d2 with
      | Some y, Some m, Some d =>
          if (1 <=? m) && (m <=? 12) && (1 <=? d)
             && (d <=? DaysInMonth y (m - 1))
          then Some (MakeDay y (m - 1) d * msPerDay)
          else None
      | _, _, _ => None
      end
  | _ => None
  end.

End Js.

(* ===================================================================== *)
(** ** The environment of a request and the database *)
(* ===================================================================== *)

Definition ObjectId := N.

(** An ObjectId travels as a text of 24 hexadecimal digits: the route
    parameter [:_id] is any text, and the adapter casts it before it looks
    a document up. *)
Definition hexDigit (c : ascii) : option N :=
  match Js.digit_value c with
  | Some d => if d <? 16 then Some (Z.to_N d) else None
  | None => None
  end.

Fixpoint hexValue (s : string) (acc : N) : option N :=
  match s with
  | EmptyString => Some acc
  | String c rest =>
      match hexDigit c with
      | Some d => hexValue rest (16 * acc + d)%N
      | None => None
      end
  end.

(** The cast of a text to an ObjectId: it succeeds on 24 hexadecimal
    digits and fails (a CastError) on any other text. *)
Definition castObjectId (text : string) : option ObjectId :=
  if Nat.eqb (String.length text) 24 then hexValue text 0%N else None.

Definition isObjectId (text : string) : bool :=
  match castObjectId text with
  | Some _ => true
  | None => false
  end.

Definition hexChar (d : N) : ascii :=
  ascii_of_N (if (d <? 10)%N then 48 + d else 87 + d)%N.

Fixpoint hexDigits (k : nat) (n : N) (acc : string) : string :=
  match k with
  | O => acc
  | S k' => hexDigits k' (n / 16)%N (String (hexChar (n mod 16)%N) acc)
  end.

(** The text an ObjectId is answered as. *)
Definition idText (id : ObjectId) : string := hexDigits 24 id EmptyString.

(** The storage calls the handlers make. *)
Inductive DbOp :=
| UserFind
| UserFindById
| UserSave
| ExerciseSave
| ExerciseFind.

(** What the platform decides while one request is handled.
    - [now]: the time value [new Date()] yields;
    - [LocalTZA]: the host's offset from UTC, in milliseconds, at a UTC
      time value (ECMA-262's LocalTZA(t, true));
    - [hostDateParse]: Date.parse on a text that is not of the date-only
      form [YYYY-MM-DD], where ECMA-262 leaves much to the host;
    - [dbFault op]: the storage adapter rejects the call [op] (connection
      lost, server error, a value it cannot cast). *)
Record Env := {
  now : Z;
  LocalTZA : Z -> Z;
  hostDateParse : string -> Js.Date;
  dbFault : DbOp -> bool
}.

(** [new Date(text)]. *)
Definition newDate (env : Env) (text : string) : Js.Date :=
  match Js.parse_iso_date text with
  | Some t => Js.DateAt t
  | None => hostDateParse env text
  end.

(** [d.toDateString()]: the calendar day of [d] in the host's local time. *)
Definition toDateString (env : Env) (d : Js.Date) : string :=
  match d with
  | Js.InvalidDate => "Invalid Date"
  | Js.DateAt tv => Js.DateString (tv + LocalTZA env tv)
  end.

Module User.

(** A stored document of the users collection. *)
Record t := {
  _id : ObjectId;
  username : string
}.

(** [new User({ username })] before it is saved: the field may be
    [undefined]. *)
Record Doc := {
  doc_id : ObjectId;
  doc_username : option string
}.

(** userSchema (lines 13-15): [username] is a required String; the
    required check of a String path refuses [undefined] and the empty
    text. *)
Definition validate (d : Doc) : option t :=
  match doc_username d with
  | Some name =>
      if (name =? "")%string then None
      else Some {| _id := doc_id d; username := name |}
  | None => None
  end.

(** The document as [res.json] serialises it: the schema's path, the id
    and the version key the adapter adds on insert. *)
Definition toJSON (u : t) : Js.Value :=
  Js.VObject [("_id", Js.VObjectId (_id u));
              ("username", Js.VString (username u));
              ("__v", Js.VNumber (Js.Num 0))].

End User.

Module Exercise.

(** A stored document of the exercises collection (exerciseSchema, lines
    17-22); [description] and [duration] are optional paths. *)
Record t := {
  _id : ObjectId;
  username : string;
  description : option string;
  duration : option Z;
  date : Z
}.

(** [new Exercise({ username, description, duration, date })] before it is
    saved; [date] is the Date object the handler built. *)
Record Doc := {
  doc_id : ObjectId;
  doc_username : string;
  doc_description : option string;
  doc_duration : option Z;
  doc_date : Js.Date
}.

(** [username] is required; a Date path cannot hold an Invalid Date (the
    cast fails and the save is rejected). *)
Definition validate (d : Doc) : option t :=
  if (doc_username d =? "")%string then None
  else match doc_date d with
       | Js.InvalidDate => None
       | Js.DateAt tv =>
           Some {| _id := doc_id d;
                   username := doc_username d;
                   description := doc_description d;
                   duration := doc_duration d;
                   date := tv |}
       end.

(** The query object of line 166: [{ username, date: { $gte, $lte } }]. *)
Record Filter := {
  f_username : string;
  f_gte : Js.Date;
  f_lte : Js.Date
}.

Definition matches (name : string) (lo hi : Z) (e : t) : bool :=
  (username e =? name)%string && (lo <=? date e) && (date e <=? hi).

End Exercise.

(** The two collections, in insertion order, and the counter the next
    ObjectId is drawn from. *)
Record Db := {
  users : list User.t;
  exercises : list Exercise.t;
  nextId : ObjectId
}.

Definition emptyDb : Db := {| users := []; exercises := []; nextId := 0%N |}.

(* ===================================================================== *)
(** ** Promises over the database *)
(* ===================================================================== *)

(** How an awaited promise settles. *)
Inductive Settled (A : Type) :=
| Fulfilled (a : A)
| Rejected.

Arguments Fulfilled {A} a.
Arguments Rejected {A}.

(** An asynchronous computation: it settles and leaves a database. *)
Definition Async (A : Type) : Type := Db -> Settled A * Db.

Definition resolve {A} (a : A) : Async A := fun db => (Fulfilled a, db).

(** [const x = await m; k x]: a rejection skips [k]. *)
Definition await {A B} (m : Async A) (k : A -> Async B) : Async B :=
  fun db =>
    match m db with
    | (Fulfilled a, db') => k a db'
    | (Rejected, db') => (Rejected, db')
    end.

(** [try { m } catch (err) { h }]. *)
Definition try_catch {A} (m : Async A) (h : Async A) : Async A :=
  fun db =>
    match m db with
    | (Fulfilled a, db') => (Fulfilled a, db')
    | (Rejected, db') => h db'
    end.

Notation "x <- m ;; k" := (await m (fun x => k))
  (at level 100, m at next level, right associativity).

Notation "'try' m 'catch' h" := (try_catch m h)
  (at level 100, m at level 100, h at level 100).

(** Draw a fresh ObjectId (every [new Model(..)] does). *)
Definition freshId : Async ObjectId :=
  fun db =>
    (Fulfilled (nextId db),
     {| users := users db; exercises := exercises db;
        nextId := N.succ (nextId db) |}).

(* ===================================================================== *)
(** ** The model operations the handlers call *)
(* ===================================================================== *)

Definition setUsers (us : list User.t) (db : Db) : Db :=
  {| users := us; exercises := exercises db; nextId := nextId db |}.

Definition setExercises (es : list Exercise.t) (db : Db) : Db :=
  {| users := users db; exercises := es; nextId := nextId db |}.

(** [User.find({})]: every document.  The query asks for no order and
    MongoDB then answers in its natural order; no document is ever
    updated or deleted here, and the model takes that order to be the
    order of insertion. *)
Definition User_find (env : Env) : Async (list User.t) :=
  fun db =>
    if dbFault env UserFind then (Rejected, db)
    else (Fulfilled (users db), db).

(** The document of the users collection whose id the text [id] names, if
    any. *)
Definition lookupUser (id : string) (db : Db) : option User.t :=
  match castObjectId id with
  | Some oid => find (fun u => N.eqb (User._id u) oid) (users db)
  | None => None
  end.

(** [User.findById(id)]: the document with that id, or [null]; a text
    that is no ObjectId cannot be cast and rejects the lookup. *)
Definition User_findById (env : Env) (id : string)
  : Async (option User.t) :=
  fun db =>
    if dbFault env UserFindById then (Rejected, db)
    else if isObjectId id then (Fulfilled (lookupUser id db), db)
    else (Rejected, db).

(** [new User({ username: username })]. *)
Definition new_User (username : option string) : Async User.Doc :=
  id <- freshId ;;
  resolve {| User.doc_id := id; User.doc_username := username |}.

(** [userDoc.save()]: validates against the schema, then inserts. *)
Definition UserDoc_save (env : Env) (d : User.Doc) : Async User.t :=
  fun db =>
    match User.validate d with
    | None => (Rejected, db)
    | Some u =>
        if dbFault env UserSave then (Rejected, db)
        else (Fulfilled u, setUsers (users db ++ [u]) db)
    end.

(** [new Exercise({ username, description, duration, date })]. *)
Definition new_Exercise (username : string) (description : option string)
    (duration : option Z) (date : Js.Date) : Async Exercise.Doc :=
  id <- freshId ;;
  resolve {| Exercise.doc_id := id;
             Exercise.doc_username := username;
             Exercise.doc_description := description;
             Exercise.doc_duration := duration;
             Exercise.doc_date := date |}.

(** [exerciseDoc.save()]. *)
Definition ExerciseDoc_save (env : Env) (d : Exercise.Doc)
  : Async Exercise.t :=
  fun db =>
    match Exercise.validate d with
    | None => (Rejected, db)
    | Some e =>
        if dbFault env ExerciseSave then (Rejected, db)
        else (Fulfilled e, setExercises (exercises db ++ [e]) db)
    end.

(** [Exercise.find(searchFilter)]: the documents the filter matches, in
    the order of insertion (the query asks for no order, see [User_find]);
    a bound that is an Invalid Date cannot be cast and rejects the
    query. *)
Definition Exercise_find (env : Env) (flt : Exercise.Filter)
  : Async (list Exercise.t) :=
  fun db =>
    match Exercise.f_gte flt, Exercise.f_lte flt with
    | Js.DateAt lo, Js.DateAt hi =>
        if dbFault env ExerciseFind then (Rejected, db)
        else (Fulfilled
                (filter (Exercise.matches (Exercise.f_username flt) lo hi)
                        (exercises db)),
              db)
    | _, _ => (Rejected, db)
    end.

(* ===================================================================== *)
(** ** Requests and responses *)
(* ===================================================================== *)

Module Req.

(** [req.params]: the text of the route parameter [:_id]. *)
Record Params := {
  _id : string
}.

(** [req.body]: each field absent or as the schema's type holds it
    ([username] and [description] a String, [duration] an integer Number
    of minutes); [date] is the text the handler parses itself.  A body
    whose field the schema cannot cast to its type (an object for
    [username], a text that is no number for [duration]) is not a value
    of this record: the theorems below speak of the bodies that are. *)
Record Body := {
  username : option string;
  description : option string;
  duration : option Z;
  date : option string
}.

(** [req.query]: each parameter absent or a text. *)
Record Query := {
  from : option string;
  to : option string;
  limit : option string
}.

Record t := {
  params : Params;
  body : Body;
  query : Query
}.

Definition noBody : Body :=
  {| username := None; description := None; duration := None; date := None |}.

Definition noQuery : Query := {| from := None; to := None; limit := None |}.

End Req.

Record Response := {
  statusCode : Z;
  payload : Js.Value
}.

(** [res.json(v)]: the status code is left at its default, 200. *)
Definition res_json (v : Js.Value) : Response :=
  {| statusCode := 200; payload := v |}.

Definition error (message : string) : Js.Value :=
  Js.VObject [("error", Js.VString message)].

(** [p ? f(p) : d] on a parameter that is absent or a text. *)
Definition ifParam {A} (p : option string) (f : string -> A) (d : A) : A :=
  match p with
  | Some s => if Js.truthy (Js.VString s) then f s else d
  | None => d
  end.

(* ===================================================================== *)
(** ** The route handlers *)
(* ===================================================================== *)

(** What a handler leaves behind: the response it sent, if any. *)
Definition Handler := Async (option Response).

Definition send (r : Response) : Handler := resolve (Some r).

(** A [catch] block that only logs: nothing is sent. *)
Definition console_error : Handler := resolve None.

(** getUsers (lines 48-61). *)
Definition getUsers (env : Env) (req : Req.t) : Handler :=
  try (
    users <- User_find env ;;
    if negb (Js.truthy (Js.VArray (map User.toJSON users)))
    then send (res_json (error "No users found"))
    else send (res_json (Js.VArray (map User.toJSON users)))
  ) catch console_error.

(** createUser (lines 69-83). *)
Definition createUser (env : Env) (req : Req.t) : Handler :=
  let username := Req.username (Req.body req) in
  userDoc <- new_User username ;;
  try (
    user <- UserDoc_save env userDoc ;;
    send (res_json (Js.VObject
      [("username", Js.VString (User.username user));
       ("_id", Js.VObjectId (User._id user))]))
  ) catch send (res_json (error "Failed to create user")).

(** The object of lines 125-131. *)
Definition exerciseResponse (env : Env) (user : User.t)
    (savedExercise : Exercise.t) : Js.Value :=
  Js.VObject
    [("_id", Js.VObjectId (User._id user));
     ("username", Js.VString (User.username user));
     ("description", Js.of_text (Exercise.description savedExercise));
     ("duration", Js.of_number (Exercise.duration savedExercise));
     ("date", Js.VString
        (toDateString env (Js.DateAt (Exercise.date savedExercise))))].

(** Line 105: [req.body.date ? new Date(req.body.date) : new Date()]. *)
Definition bodyDate (env : Env) (req : Req.t) : Js.Date :=
  ifParam (Req.date (Req.body req)) (newDate env) (Js.DateAt (now env)).

(** app.post('/api/users/:_id/exercises') (lines 101-135). *)
Definition postExercise (env : Env) (req : Req.t) : Handler :=
  let userId := Req._id (Req.params req) in
  let description := Req.description (Req.body req) in
  let duration := Req.duration (Req.body req) in
  let date := bodyDate env req in
  try (
    user <- User_findById env userId ;;
    match user with
    | None => send (res_json (error "User not found"))
    | Some user =>
        exerciseDoc <-
          new_Exercise (User.username user) description duration date ;;
        savedExercise <- ExerciseDoc_save env exerciseDoc ;;
        send (res_json (exerciseResponse env user savedExercise))
    end
  ) catch console_error.

(** The callback of [exercises.map] (lines 179-183). *)
Definition logEntry (env : Env) (e : Exercise.t) : Js.Value :=
  Js.VObject
    [("description", Js.of_text (Exercise.description e));
     ("duration", Js.of_number (Exercise.duration e));
     ("date", Js.VString (toDateString env (Js.DateAt (Exercise.date e))))].

(** The object of lines 175-184, with [log] as line 188 may replace it. *)
Definition logData (user : User.t) (count : nat) (log : list Js.Value)
  : Js.Value :=
  Js.VObject
    [("_id", Js.VObjectId (User._id user));
     ("username", Js.VString (User.username user));
     ("count", Js.VNumber (Js.Num (Z.of_nat count)));
     ("log", Js.VArray log)].

(** Line 154: [req.query.from ? new Date(req.query.from) : new Date(0)]. *)
Definition queryFrom (env : Env) (req : Req.t) : Js.Date :=
  ifParam (Req.from (Req.query req)) (newDate env) (Js.DateAt 0).

(** Line 155: [req.query.to ? new Date(req.query.to) : new Date()]. *)
Definition queryTo (env : Env) (req : Req.t) : Js.Date :=
  ifParam (Req.to (Req.query req)) (newDate env) (Js.DateAt (now env)).

(** Line 156: [req.query.limit ? parseInt(req.query.limit) : 0]. *)
Definition queryLimit (req : Req.t) : Js.Number :=
  ifParam (Req.limit (Req.query req)) Js.parseInt (Js.Num 0).

(** app.get('/api/users/:_id/logs') (lines 152-195). *)
Definition getLogs (env : Env) (req : Req.t) : Handler :=
  let userId := Req._id (Req.params req) in
  let from := queryFrom env req in
  let to := queryTo env req in
  let limit := queryLimit req in
  try (
    user <- User_findById env userId ;;
    match user with
    | None => send (res_json (error "User not found"))
    | Some user =>
        let searchFilter :=
          {| Exercise.f_username := User.username user;
             Exercise.f_gte := from;
             Exercise.f_lte := to |} in
        exercises <- Exercise_find env searchFilter ;;
        let log := map (logEntry env) exercises in
        let log := if Js.gt0 limit then Js.slice0 log limit else log in
        send (res_json (logData user (List.length exercises) log))
    end
  ) catch console_error.

(** The four operations, and one request served against a database: the
    response sent (none when the handler only logged) and the database
    left. *)
Inductive Route :=
| GET_users
| POST_users
| POST_exercises
| GET_logs.

Definition handler (r : Route) : Env -> Req.t -> Handler :=
  match r with
  | GET_users => getUsers
  | POST_users => createUser
  | POST_exercises => postExercise
  | GET_logs => getLogs
  end.

Definition run (h : Handler) (db : Db) : option Response * Db :=
  match h db with
  | (Fulfilled sent, db') => (sent, db')
  | (Rejected, db') => (None, db')
  end.

Definition serve (r : Route) (env : Env) (req : Req.t) (db : Db)
  : option Response * Db :=
  run (handler r env req) db.

(** A sequence of requests served one after the other. *)
Fixpoint serveAll (calls : list (Route * Env * Req.t)) (db : Db) : Db :=
  match calls with
  | [] => db
  | (r, env, req) :: rest => serveAll rest (snd (serve r env req db))
  end.

(* ===================================================================== *)
(** ** The specification's reading of the log query *)
(* ===================================================================== *)

(** An exercise belongs to [name] and its date lies in the closed interval
    [[lo, hi]]. *)
Definition InWindow (name : string) (lo hi : Z) (e : Exercise.t) : Prop :=
  Exercise.username e = name /\ lo <= Exercise.date e <= hi.


(** Two exercise documents that differ at most in their own ids. *)
Definition sameButId (e1 e2 : Exercise.t) : Prop :=
  Exercise.username e1 = Exercise.username e2
  /\ Exercise.description e1 = Exercise.description e2
  /\ Exercise.duration e1 = Exercise.duration e2
  /\ Exercise.date e1 = Exercise.date e2.

(** Every stored document has an id drawn before [nextId]. *)
Definition idsBelowNext (db : Db) : Prop :=
  (forall u, In u (users db) -> (User._id u < nextId db)%N)
  /\ (forall e, In e (exercises db) -> (Exercise._id e < nextId db)%N).

(** Every stored user has a username, as the schema requires. *)
Definition usernamesPresent (db : Db) : Prop :=
  forall u, In u (users db) -> User.username u <> "".

(** What one operation may do to the collections. *)
Definition unchanged (db db' : Db) : Prop :=
  users db' = users db /\ exercises db' = exercises db.

Definition appendsAtMostOneUser (db db' : Db) : Prop :=
  exercises db' = exercises db
  /\ (users db' = users db \/ exists u, users db' = users db ++ [u]).

Definition appendsAtMostOneExercise (db db' : Db) : Prop :=
  users db' = users db
  /\ (exercises db' = exercises db
      \/ exists e, exercises db' = exercises db ++ [e]).

(* ===================================================================== *)
(** ** Sample data *)
(* ===================================================================== *)

Module Sample.

(** A host on UTC whose storage answers every call; the clock stands at
    2023-11-14T22:13:20Z. *)
Definition utc : Env :=
  {| now := 1700000000000;
     LocalTZA := fun _ => 0;
     hostDateParse := fun _ => Js.InvalidDate;
     dbFault := fun _ => false |}.

(** The same host five hours west of UTC. *)
Definition west : Env :=
  {| now := 1700000000000;
     LocalTZA := fun _ => -18000000;
     hostDateParse := fun _ => Js.InvalidDate;
     dbFault := fun _ => false |}.

Definition request (id : ObjectId) (b : Req.Body) (q : Req.Query) : Req.t :=
  {| Req.params := {| Req._id := idText id |};
     Req.body := b; Req.query := q |}.

Definition newUser (name : string) : Req.t :=
  request 0%N
    {| Req.username := Some name; Req.description := None;
       Req.duration := None; Req.date := None |}
    Req.noQuery.

Definition newExercise (id : ObjectId) (description : string) (duration : Z)
    (date : option string) : Req.t :=
  request id
    {| Req.username := None; Req.description := Some description;
       Req.duration := Some duration; Req.date := date |}
    Req.noQuery.

Definition logs (id : ObjectId) (from to limit : option string) : Req.t :=
  request id Req.noBody
    {| Req.from := from; Req.to := to; Req.limit := limit |}.

Definition alice : User.t := {| User._id := 0%N; User.username := "alice" |}.

(** One user with one exercise, created through the API. *)
Definition oneRun : Db :=
  serveAll
    [(POST_users, utc, newUser "alice");
     (POST_exercises, utc, newExercise 0%N "run" 30 (Some "2023-01-01"))]
    emptyDb.

(** One user with exercises in 1969, early 2023 (three of them) and at the
    time of the call. *)
Definition diary : Db :=
  serveAll
    [(POST_users, utc, newUser "alice");
     (POST_users, utc, newUser "bob");
     (POST_exercises, utc, newExercise 0%N "moonwalk" 150 (Some "1969-07-20"));
     (POST_exercises, utc, newExercise 0%N "run" 30 (Some "2023-01-01"));
     (POST_exercises, utc, newExercise 1%N "row" 20 (Some "2023-01-02"));
     (POST_exercises, utc, newExercise 0%N "swim" 45 (Some "2023-01-15"));
     (POST_exercises, utc, newExercise 0%N "ride" 60 (Some "2023-01-31"));
     (POST_exercises, utc, newExercise 0%N "walk" 10 None)]
    emptyDb.

(** The documents [diary] holds, as the calls above stored them. *)
Definition exercise (id : ObjectId) (name description : string)
    (duration date : Z) : Exercise.t :=
  {| Exercise._id := id; Exercise.username := name;
     Exercise.description := Some description;
     Exercise.duration := Some duration; Exercise.date := date |}.

Definition bob : User.t := {| User._id := 1%N; User.username := "bob" |}.
Definition moonwalk := exercise 2%N "alice" "moonwalk" 150 (-14256000000).
Definition running := exercise 3%N "alice" "run" 30 1672531200000.
Definition rowing := exercise 4%N "bob" "row" 20 1672617600000.
Definition swimming := exercise 5%N "alice" "swim" 45 1673740800000.
Definition riding := exercise 6%N "alice" "ride" 60 1675123200000.
Definition walking := exercise 7%N "alice" "walk" 10 1700000000000.

(** [oneRun] with the exercise stored under another id. *)
Definition oneRun' : Db :=
  setExercises
    [{| Exercise._id := 41%N; Exercise.username := "alice";
        Exercise.description := Some "run"; Exercise.duration := Some 30;
        Exercise.date := 1672531200000 |}]
    oneRun.

End Sample.

(* ===================================================================== *)
(** ** Further notions about requests and databases *)
(* ===================================================================== *)

(** The databases the API can build: those a sequence of requests leaves
    when served from the empty database. *)
Definition reachable (db : Db) : Prop :=
  exists calls, db = serveAll calls emptyDb.

(** Every stored exercise carries the username of a stored user. *)
Definition exercisesOwned (db : Db) : Prop :=
  forall e, In e (exercises db) ->
    exists u, In u (users db) /\ User.username u = Exercise.username e.


(** The text [YYYY-MM-DD] made of eight characters. *)
Definition isoText (y1 y2 y3 y4 m1 m2 d1 d2 : ascii) : string :=
  String y1 (String y2 (String y3 (String y4 (String "-"
    (String m1 (String m2 (String "-"
      (String d1 (String d2 EmptyString))))))))).

(** A parameter given as the empty text, read as absent. *)
Definition blank (p : option string) : option string :=
  match p with
  | Some s => if (s =? "")%string then None else Some s
  | None => None
  end.

(** The request with every empty [from], [to], [limit] and [date] taken
    out. *)
Definition blankRequest (req : Req.t) : Req.t :=
  {| Req.params := Req.params req;
     Req.body :=
       {| Req.username := Req.username (Req.body req);
          Req.description := Req.description (Req.body req);
          Req.duration := Req.duration (Req.body req);
          Req.date := blank (Req.date (Req.body req)) |};
     Req.query :=
       {| Req.from := blank (Req.from (Req.query req));
          Req.to := blank (Req.to (Req.query req));
          Req.limit := blank (Req.limit (Req.query req)) |} |}.

(** The number of entries [log] keeps of [count] matches under [limit]. *)
Definition kept (limit : Js.Number) (count : nat) : nat :=
  match limit with
  | Js.NaN => count
  | Js.Num n => if 0 <? n then Nat.min (Z.to_nat n) count else count
  end.

Module Cases.

(** A host whose storage rejects every call. *)
Definition down : Env :=
  {| now := 1700000000000;
     LocalTZA := fun _ => 0;
     hostDateParse := fun _ => Js.InvalidDate;
     dbFault := fun _ => true |}.

(** A host whose storage rejects saves and queries on exercises only. *)
Definition halfDown : Env :=
  {| now := 1700000000000;
     LocalTZA := fun _ => 0;
     hostDateParse := fun _ => Js.InvalidDate;
     dbFault := fun op =>
       match op with
       | ExerciseSave | ExerciseFind => true
       | _ => false
       end |}.

(** The UTC host one day later. *)
Definition nextDay : Env :=
  {| now := 1700086400000;
     LocalTZA := fun _ => 0;
     hostDateParse := fun _ => Js.InvalidDate;
     dbFault := fun _ => false |}.

(** Two users named alice; the first has one exercise. *)
Definition twins : Db :=
  serveAll
    [(POST_users, Sample.utc, Sample.newUser "alice");
     (POST_users, Sample.utc, Sample.newUser "alice");
     (POST_exercises, Sample.utc,
      Sample.newExercise 0%N "run" 30 (Some "2023-01-01"))]
    emptyDb.

Definition alice2 : User.t := {| User._id := 1%N; User.username := "alice" |}.

(** A request for [/api/users/9/...]: the text 9 is no ObjectId. *)
Definition nine : Req.t :=
  {| Req.params := {| Req._id := "9" |};
     Req.body :=
       {| Req.username := None; Req.description := Some "run";
          Req.duration := Some 30; Req.date := None |};
     Req.query := Req.noQuery |}.

End Cases.

(* ===================================================================== *)
(** ** Proof steps used more than once *)
(* ===================================================================== *)

(** Open a served request down to the storage calls it makes. *)
Ltac open_handler :=
  unfold serve, run, handler, getUsers, createUser, postExercise, getLogs,
    new_User, new_Exercise, try_catch, await, freshId, resolve,
    User_find, User_findById, UserDoc_save, ExerciseDoc_save, Exercise_find.

(** Case analysis on every storage outcome and parameter a handler
    tests. *)
Ltac handler_cases env req db :=
  repeat match goal with
         | |- context [dbFault env ?op] => destruct (dbFault env op) eqn:?
         | |- context [isObjectId ?i] => destruct (isObjectId i) eqn:?
         | |- context [lookupUser ?i db] => destruct (lookupUser i db) eqn:?
         | |- context [User.validate ?d] => destruct (User.validate d) eqn:?
         | |- context [Exercise.validate ?d] =>
             destruct (Exercise.validate d) eqn:?
         | |- context [queryFrom env req] => destruct (queryFrom env req) eqn:?
         | |- context [queryTo env req] => destruct (queryTo env req) eqn:?
         end; cbn [fst snd].



(** Case analysis on a month number known to lie in 0..11. *)
Ltac each_month m :=
  let H := fresh "Hcases" in
  assert (m = 0 \/ m = 1 \/ m = 2 \/ m = 3 \/ m = 4 \/ m = 5 \/ m = 6
          \/ m = 7 \/ m = 8 \/ m = 9 \/ m = 10 \/ m = 11) as H by lia;
  repeat (destruct H as [->|H]); try subst m.

(* ===================================================================== *)
(** ** Facts about the platform model *)
(* ===================================================================== *)

(** [YearFromTime] meets its definition in ECMA-262: the year it returns
    starts on or before the day of [t], and the next year starts after. *)
Lemma YearFromTime_spec (t : Z) :
  Js.DayFromYear (Js.YearFromTime t) <= Js.Day t
  < Js.DayFromYear (Js.YearFromTime t + 1).
Proof.
  unfold Js.YearFromTime. generalize (Js.Day t). intro d. cbv zeta.
  destruct (Z.ltb_spec d (Js.DayFromYear (1970 + 400 * d / 146097))) as [Hlt|Hge].
  - unfold Js.DayFromYear in *. Z.div_mod_to_equations. lia.
  - destruct (Z.leb_spec (Js.DayFromYear (1970 + 400 * d / 146097 + 1)) d);
      unfold Js.DayFromYear in *; Z.div_mod_to_equations; lia.
Qed.

Lemma DayFromYear_mono (a b : Z) :
  a <= b -> Js.DayFromYear a <= Js.DayFromYear b.
Proof. unfold Js.DayFromYear. intro H. Z.div_mod_to_equations. lia. Qed.

Lemma YearFromTime_unique (t y : Z) :
  Js.DayFromYear y <= Js.Day t < Js.DayFromYear (y + 1) ->
  Js.YearFromTime t = y.
Proof.
  intro Hy. pose proof (YearFromTime_spec t) as HY.
  destruct (Z.lt_trichotomy (Js.YearFromTime t) y) as [Hlt|[Heq|Hgt]];
    [|exact Heq|].
  - pose proof (DayFromYear_mono (Js.YearFromTime t + 1) y ltac:(lia)). lia.
  - pose proof (DayFromYear_mono (y + 1) (Js.YearFromTime t) ltac:(lia)). lia.
Qed.

(** A year has 365 days, and one more when it is a leap year. *)
Lemma year_length (y : Z) :
  Js.DayFromYear (y + 1) - Js.DayFromYear y
  = 365 + (if Js.is_leap y then 1 else 0).
Proof.
  unfold Js.DayFromYear, Js.is_leap.
  destruct (Z.eqb_spec (y mod 4) 0), (Z.eqb_spec (y mod 100) 0),
    (Z.eqb_spec (y mod 400) 0); cbn [andb orb negb];
    Z.div_mod_to_equations; lia.
Qed.

(** Within a year of [365 + leap] days, the month table finds the month
    [m] again from the day number of the day [d] of [m]. *)
Lemma month_table (m leap d : Z) :
  0 <= m <= 11 -> leap = 0 \/ leap = 1 ->
  1 <= d <= Js.month_start (m + 1) leap - Js.month_start m leap ->
  let n := Js.month_start m leap + d - 1 in
  0 <= n < 365 + leap
  /\ (if n <? Js.month_start 1 leap then 0
      else if n <? Js.month_start 2 leap then 1
      else if n <? Js.month_start 3 leap then 2
      else if n <? Js.month_start 4 leap then 3
      else if n <? Js.month_start 5 leap then 4
      else if n <? Js.month_start 6 leap then 5
      else if n <? Js.month_start 7 leap then 6
      else if n <? Js.month_start 8 leap then 7
      else if n <? Js.month_start 9 leap then 8
      else if n <? Js.month_start 10 leap then 9
      else if n <? Js.month_start 11 leap then 10
      else 11) = m.
Proof.
  intros Hm [->| ->] Hd n; subst n; each_month m;
    match type of Hd with
    | context [Js.month_start (?k + 1) _] =>
        let v := eval vm_compute in (k + 1) in change (k + 1) with v in Hd
    end;
    cbv beta iota delta [Js.month_start] in Hd |- *;
    (split; [lia|]);
    repeat match goal with
           | |- context [?a <? ?b] => destruct (Z.ltb_spec a b); try lia
           end.
Qed.

(** The year, month and day of the month read from the time value of a
    calendar day are that day's. *)
Lemma MakeDay_roundtrip (y m d : Z) :
  0 <= m <= 11 -> 1 <= d <= Js.DaysInMonth y m ->
  let t := Js.MakeDay y m d * Js.msPerDay in
  Js.YearFromTime t = y /\ Js.MonthFromTime t = m /\ Js.DateFromTime t = d.
Proof.
  intros Hm Hd t.
  assert (HD : Js.Day t = Js.MakeDay y m d).
  { unfold t, Js.Day, Js.msPerDay. now rewrite Z.div_mul. }
  pose proof (year_length y) as HL.
  unfold Js.DaysInMonth in Hd. unfold Js.MakeDay in HD.
  assert (HI : forall t', Js.YearFromTime t' = y ->
            Js.InLeapYear t' = if Js.is_leap y then 1 else 0).
  { intros t' Ht'. unfold Js.InLeapYear. now rewrite Ht'. }
  remember (if Js.is_leap y then 1 else 0) as leap eqn:Hleap.
  assert (Hbit : leap = 0 \/ leap = 1)
    by (subst leap; destruct (Js.is_leap y); auto).
  destruct (month_table m leap d Hm Hbit Hd) as [Hrange Hmonth].
  assert (HY : Js.YearFromTime t = y).
  { apply YearFromTime_unique. rewrite HD. lia. }
  assert (HW : Js.DayWithinYear t = Js.month_start m leap + d - 1).
  { unfold Js.DayWithinYear. rewrite HD, HY. lia. }
  assert (HM : Js.MonthFromTime t = m).
  { unfold Js.MonthFromTime. rewrite HW, (HI t HY). exact Hmonth. }
  split; [exact HY|]. split; [exact HM|].
  unfold Js.DateFromTime. rewrite HW, (HI t HY), HM. lia.
Qed.

(** The calendar text of a time value depends on its day only. *)
Lemma DateString_same_day (t1 t2 : Z) :
  Js.Day t1 = Js.Day t2 -> Js.DateString t1 = Js.DateString t2.
Proof.
  intro H.
  assert (Hy : Js.YearFromTime t1 = Js.YearFromTime t2)
    by (unfold Js.YearFromTime; now rewrite H).
  assert (Hl : Js.InLeapYear t1 = Js.InLeapYear t2)
    by (unfold Js.InLeapYear; now rewrite Hy).
  assert (Hd : Js.DayWithinYear t1 = Js.DayWithinYear t2)
    by (unfold Js.DayWithinYear; now rewrite H, Hy).
  assert (Hm : Js.MonthFromTime t1 = Js.MonthFromTime t2)
    by (unfold Js.MonthFromTime; now rewrite Hd, Hl).
  unfold Js.DateString, Js.DateFromTime, Js.WeekDay.
  now rewrite H, Hy, Hl, Hd, Hm.
Qed.

(** [slice(0, n)] with [n > 0] keeps the first [n] elements. *)
Lemma slice0_positive {A : Type} (l : list A) (n : Z) :
  0 < n -> Js.slice0 l (Js.Num n) = firstn (Z.to_nat n) l.
Proof.
  intro Hn. unfold Js.slice0.
  destruct (Z.ltb_spec n 0) as [Hneg|_]; [lia|].
  destruct (Z.le_gt_cases n (Z.of_nat (List.length l))) as [Hle|Hgt].
  - now rewrite Z.min_l.
  - rewrite Z.min_r by lia. rewrite Nat2Z.id.
    rewrite firstn_all. symmetry. apply firstn_all2. lia.
Qed.

(** The filter of line 166 tests membership in the window. *)
Lemma matches_InWindow (name : string) (lo hi : Z) (e : Exercise.t) :
  Exercise.matches name lo hi e = true <-> InWindow name lo hi e.
Proof.
  unfold Exercise.matches, InWindow.
  rewrite !andb_true_iff, String.eqb_eq, !Z.leb_le. tauto.
Qed.




(** A text that names a stored user is an ObjectId. *)
Lemma lookupUser_isObjectId (id : string) (db : Db) (u : User.t) :
  lookupUser id db = Some u -> isObjectId id = true.
Proof.
  unfold lookupUser, isObjectId.
  destruct (castObjectId id); [reflexivity | discriminate].
Qed.

(** The lookup reads the users collection only. *)
Lemma lookupUser_users (id : string) (db db' : Db) :
  users db' = users db -> lookupUser id db' = lookupUser id db.
Proof. unfold lookupUser. now intros ->. Qed.

Lemma lookupUser_no_ObjectId (id : string) (db : Db) :
  isObjectId id = false -> lookupUser id db = None.
Proof.
  unfold lookupUser, isObjectId.
  destruct (castObjectId id); [discriminate | reflexivity].
Qed.

(* ===================================================================== *)
(** ** The log query *)
(* ===================================================================== *)

Lemma diary_contents :
  Sample.diary =
    {| users := [Sample.alice; Sample.bob];
       exercises := [Sample.moonwalk; Sample.running; Sample.rowing;
                     Sample.swimming; Sample.riding; Sample.walking];
       nextId := 8%N |}.
Proof. reflexivity. Qed.

Section FoundUser.

(** A log query that reaches line 172: the storage answers, the id is that
    of a stored user, and both bounds are valid dates. *)
Variables (env : Env) (req : Req.t) (db : Db) (user : User.t) (lo hi : Z).
Hypothesis lookup_answers : dbFault env UserFindById = false.
Hypothesis find_answers : dbFault env ExerciseFind = false.
Hypothesis user_found :
  lookupUser (Req._id (Req.params req)) db = Some user.
Hypothesis from_valid : queryFrom env req = Js.DateAt lo.
Hypothesis to_valid : queryTo env req = Js.DateAt hi.

(** The log query on an existing user with valid bounds, step by step. *)
Lemma getLogs_found :
  serve GET_logs env req db =
    (Some (res_json
       (logData user
          (List.length
             (filter (Exercise.matches (User.username user) lo hi)
                     (exercises db)))
          (let log :=
             map (logEntry env)
                 (filter (Exercise.matches (User.username user) lo hi)
                         (exercises db)) in
           if Js.gt0 (queryLimit req) then Js.slice0 log (queryLimit req)
           else log))),
     db).
Proof.
  open_handler.
  rewrite lookup_answers, (lookupUser_isObjectId _ _ _ user_found), user_found.
  cbn [Exercise.f_gte Exercise.f_lte Exercise.f_username].
  rewrite from_valid, to_valid, find_answers. reflexivity.
Qed.

(** C1.  On an existing user, the [count] of the response is the number of
    exercises matching the username and the date bounds before any
    truncation; its [log] holds the first [limit] of them when
    [limit > 0], and all of them when [limit] is 0 or the parameter is
    absent.  In particular, with three matches and [limit] 1, [count] is 3
    and [log] has one entry. *)
Theorem logs_count_before_truncation :
  let matched :=
    filter (Exercise.matches (User.username user) lo hi) (exercises db) in
  let entry (e : Exercise.t) :=
    Js.VObject
      [("description", Js.of_text (Exercise.description e));
       ("duration", Js.of_number (Exercise.duration e));
       ("date", Js.VString (toDateString env (Js.DateAt (Exercise.date e))))] in
  let answer (log : list Exercise.t) :=
    (Some {| statusCode := 200;
             payload := Js.VObject
               [("_id", Js.VObjectId (User._id user));
                ("username", Js.VString (User.username user));
                ("count",
                 Js.VNumber (Js.Num (Z.of_nat (List.length matched))));
                ("log", Js.VArray (map entry log))] |},
     db) in
  (exists log, serve GET_logs env req db = answer log)
  /\ (forall n, queryLimit req = Js.Num n -> 0 < n ->
        serve GET_logs env req db = answer (firstn (Z.to_nat n) matched))
  /\ (queryLimit req = Js.Num 0 -> serve GET_logs env req db = answer matched)
  /\ (Req.limit (Req.query req) = None ->
        serve GET_logs env req db = answer matched)
  /\ (List.length matched = 3%nat -> queryLimit req = Js.Num 1 ->
        exists first,
          serve GET_logs env req db =
            (Some {| statusCode := 200;
                     payload := Js.VObject
                       [("_id", Js.VObjectId (User._id user));
                        ("username", Js.VString (User.username user));
                        ("count", Js.VNumber (Js.Num 3));
                        ("log", Js.VArray [entry first])] |},
             db)).
Proof.
  intros matched entry answer.
  pose proof getLogs_found as Hserve.
  cbv zeta in Hserve. fold matched in Hserve.
  assert (Hpos : forall n, queryLimit req = Js.Num n -> 0 < n ->
            serve GET_logs env req db = answer (firstn (Z.to_nat n) matched)).
  { intros n Hn Hgt. rewrite Hserve, Hn. unfold Js.gt0.
    destruct (Z.ltb_spec 0 n) as [_|Hle]; [|lia].
    rewrite slice0_positive, firstn_map by assumption. reflexivity. }
  assert (Hzero : queryLimit req = Js.Num 0 ->
            serve GET_logs env req db = answer matched).
  { intro Hn. rewrite Hserve, Hn. reflexivity. }
  repeat split.
  - destruct (Js.gt0 (queryLimit req)) eqn:Hgt.
    + destruct (queryLimit req) as [|n] eqn:Hn; [discriminate|].
      exists (firstn (Z.to_nat n) matched). apply Hpos; [reflexivity|].
      now apply Z.ltb_lt.
    + exists matched. exact Hserve.
  - exact Hpos.
  - exact Hzero.
  - intro Habsent. apply Hzero. unfold queryLimit. now rewrite Habsent.
  - intros Hthree Hone. rewrite (Hpos 1 Hone) by lia. unfold answer.
    rewrite Hthree. destruct matched as [|first rest]; [discriminate|].
    now exists first.
Qed.


End FoundUser.

(** With three exercises matching and [limit=1], [count] is 3 and [log]
    has one entry. *)
Lemma logs_count_before_truncation_witness :
  serve GET_logs Sample.utc
    (Sample.logs 0%N (Some "2023-01-01") (Some "2023-01-31") (Some "1"))
    Sample.diary
  = (Some {| statusCode := 200;
             payload := Js.VObject
               [("_id", Js.VObjectId 0%N);
                ("username", Js.VString "alice");
                ("count", Js.VNumber (Js.Num 3));
                ("log", Js.VArray
                   [Js.VObject
                      [("description", Js.VString "run");
                       ("duration", Js.VNumber (Js.Num 30));
                       ("date", Js.VString "Sun Jan 01 2023")]])] |},
     Sample.diary).
Proof.
  destruct (logs_count_before_truncation Sample.utc
              (Sample.logs 0%N (Some "2023-01-01") (Some "2023-01-31")
                 (Some "1"))
              Sample.diary Sample.alice 1672531200000 1675123200000
              eq_refl eq_refl eq_refl eq_refl eq_refl) as (_ & Hpos & _).
  exact (Hpos 1 eq_refl eq_refl).
Defined.


(** C2, as stated, fails: with [from] absent the lower bound is the epoch,
    so alice's exercise of 1969-07-20 is left out of her log although it
    carries her username and lies before the upper bound; asking with
    [from=1969-01-01] brings it back. *)
Lemma logs_default_from_counterexample :
  In Sample.moonwalk (exercises Sample.diary)
  /\ Exercise.username Sample.moonwalk = User.username Sample.alice
  /\ Exercise.date Sample.moonwalk <= now Sample.utc
  /\ serve GET_logs Sample.utc (Sample.logs 0%N None None None) Sample.diary
     = (Some (res_json
          (logData Sample.alice 4
             (map (logEntry Sample.utc)
                [Sample.running; Sample.swimming; Sample.riding;
                 Sample.walking]))),
        Sample.diary)
  /\ serve GET_logs Sample.utc
       (Sample.logs 0%N (Some "1969-01-01") None None) Sample.diary
     = (Some (res_json
          (logData Sample.alice 5
             (map (logEntry Sample.utc)
                [Sample.moonwalk; Sample.running; Sample.swimming;
                 Sample.riding; Sample.walking]))),
        Sample.diary).
Proof.
  split; [simpl; auto|].
  split; [reflexivity|].
  split; [vm_compute; discriminate|].
  split; reflexivity.
Qed.

(** C2, amended.  With [from] absent the lower bound is the epoch (time
    value 0): the exercises considered are those of the user's username
    dated from the epoch up to the upper bound, so none dated at or after
    the epoch is excluded by the default; with [to] absent the upper bound
    is the current time. *)
Theorem logs_default_bounds (env : Env) (req : Req.t) (db : Db)
    (user : User.t) (hi : Z) :
  dbFault env UserFindById = false ->
  dbFault env ExerciseFind = false ->
  lookupUser (Req._id (Req.params req)) db = Some user ->
  Req.from (Req.query req) = None ->
  queryTo env req = Js.DateAt hi ->
  queryFrom env req = Js.DateAt 0
  /\ (Req.to (Req.query req) = None -> hi = now env)
  /\ exists considered log : list Exercise.t,
       serve GET_logs env req db =
         (Some (res_json
            (logData user (List.length considered)
               (map (logEntry env) log))), db)
       /\ (forall e, In e considered <->
             In e (exercises db)
             /\ Exercise.username e = User.username user
             /\ 0 <= Exercise.date e <= hi)
       /\ (Js.gt0 (queryLimit req) = false -> log = considered).
Proof.
  intros Hfind Hquery Huser Habsent Hto.
  assert (Hfrom : queryFrom env req = Js.DateAt 0)
    by (unfold queryFrom; now rewrite Habsent).
  split; [exact Hfrom|]. split.
  - intro Hnone. unfold queryTo in Hto. rewrite Hnone in Hto.
    simpl in Hto. congruence.
  - pose proof (getLogs_found env req db user 0 hi
                  Hfind Hquery Huser Hfrom Hto) as Hserve.
    cbv zeta in Hserve.
    set (matched :=
           filter (Exercise.matches (User.username user) 0 hi)
                  (exercises db)) in *.
    assert (Hin : forall e, In e matched <->
              In e (exercises db)
              /\ Exercise.username e = User.username user
              /\ 0 <= Exercise.date e <= hi).
    { intro e. unfold matched. rewrite filter_In, matches_InWindow.
      unfold InWindow. tauto. }
    destruct (Js.gt0 (queryLimit req)) eqn:Hgt.
    + destruct (queryLimit req) as [|n]; [discriminate|].
      apply Z.ltb_lt in Hgt.
      exists matched, (firstn (Z.to_nat n) matched).
      split; [|split; [exact Hin | discriminate]].
      now rewrite Hserve, slice0_positive, firstn_map by assumption.
    + exists matched, matched. auto.
Qed.

(** Alice's log with no parameter at all: her four exercises dated after
    the epoch and up to the time of the call. *)
Lemma logs_default_bounds_witness :
  queryFrom Sample.utc (Sample.logs 0%N None None None) = Js.DateAt 0
  /\ (@None string = None -> 1700000000000 = now Sample.utc)
  /\ exists considered log : list Exercise.t,
       serve GET_logs Sample.utc (Sample.logs 0%N None None None)
         Sample.diary =
         (Some (res_json
            (logData Sample.alice (List.length considered)
               (map (logEntry Sample.utc) log))), Sample.diary)
       /\ (forall e, In e considered <->
             In e (exercises Sample.diary)
             /\ Exercise.username e = "alice"
             /\ 0 <= Exercise.date e <= 1700000000000)
       /\ (false = false -> log = considered).
Proof.
  exact (logs_default_bounds Sample.utc (Sample.logs 0%N None None None)
           Sample.diary Sample.alice 1700000000000
           eq_refl eq_refl eq_refl eq_refl eq_refl).
Defined.

(* ===================================================================== *)
(** ** Requests for a user that does not exist *)
(* ===================================================================== *)


Lemma lookupUser_some (id : string) (db : Db) (u : User.t) :
  lookupUser id db = Some u ->
  In u (users db) /\ castObjectId id = Some (User._id u).
Proof.
  unfold lookupUser. destruct (castObjectId id) as [oid|]; [|discriminate].
  intro Hfound. apply find_some in Hfound.
  destruct Hfound as [Hin Heq]. apply N.eqb_eq in Heq. subst oid. auto.
Qed.

(** C4, as stated, fails: the id 9 resolves to no stored user, yet neither
    endpoint answers; the text is no ObjectId, the lookup throws, and the
    [catch] block only logs. *)
Lemma unknown_user_counterexample :
  (forall u, In u (users Sample.diary) ->
     idText (User._id u) <> Req._id (Req.params Cases.nine))
  /\ lookupUser (Req._id (Req.params Cases.nine)) Sample.diary = None
  /\ serve POST_exercises Sample.utc Cases.nine Sample.diary
     = (None, Sample.diary)
  /\ serve GET_logs Sample.utc Cases.nine Sample.diary
     = (None, Sample.diary).
Proof.
  split; [|repeat split].
  intros u [<-|[<-|[]]]; discriminate.
Qed.



(* ===================================================================== *)
(** ** Creating an exercise *)
(* ===================================================================== *)

(** The database after a successful exercise creation. *)
Lemma postExercise_created (env : Env) (req : Req.t) (db : Db)
    (user : User.t) (tv : Z) :
  dbFault env UserFindById = false ->
  dbFault env ExerciseSave = false ->
  lookupUser (Req._id (Req.params req)) db = Some user ->
  User.username user <> "" ->
  bodyDate env req = Js.DateAt tv ->
  let saved :=
    {| Exercise._id := nextId db;
       Exercise.username := User.username user;
       Exercise.description := Req.description (Req.body req);
       Exercise.duration := Req.duration (Req.body req);
       Exercise.date := tv |} in
  serve POST_exercises env req db =
    (Some (res_json (exerciseResponse env user saved)),
     {| users := users db;
        exercises := exercises db ++ [saved];
        nextId := N.succ (nextId db) |}).
Proof.
  intros Hfind Hsave Huser Hname Hdate saved.
  apply String.eqb_neq in Hname.
  open_handler.
  rewrite Hfind, (lookupUser_isObjectId _ _ _ Huser), Huser, Hdate.
  unfold new_Exercise, await, freshId, resolve, ExerciseDoc_save,
    Exercise.validate.
  cbn [Exercise.doc_username Exercise.doc_date Exercise.doc_id
       Exercise.doc_description Exercise.doc_duration].
  rewrite Hname, Hsave. reflexivity.
Qed.

Lemma day_of_2023_01_01 (offset : Z) :
  0 <= offset < Js.msPerDay -> Js.Day (1672531200000 + offset) = 19358.
Proof.
  unfold Js.Day, Js.msPerDay. intro H. Z.div_mod_to_equations. lia.
Qed.

Lemma day_before_2023_01_01 (offset : Z) :
  - Js.msPerDay <= offset < 0 -> Js.Day (1672531200000 + offset) = 19357.
Proof.
  unfold Js.Day, Js.msPerDay. intro H. Z.div_mod_to_equations. lia.
Qed.

(** C5, as stated, fails: on a host five hours west of UTC, creating an
    exercise with [date="2023-01-01"] answers the date
    ["Sat Dec 31 2022"]. *)
Lemma exercise_date_counterexample :
  fst (serve POST_exercises Sample.west
         (Sample.newExercise 0%N "run" 30 (Some "2023-01-01"))
         (snd (serve POST_users Sample.west (Sample.newUser "alice") emptyDb)))
  = Some {| statusCode := 200;
            payload := Js.VObject
              [("_id", Js.VObjectId 0%N);
               ("username", Js.VString "alice");
               ("description", Js.VString "run");
               ("duration", Js.VNumber (Js.Num 30));
               ("date", Js.VString "Sat Dec 31 2022")] |}.
Proof. reflexivity. Qed.

(** C5, amended.  Creating an exercise for an existing user answers the
    user's id and username, the description and duration supplied, and
    the date as [toDateString] renders it in the host's local time; the
    exercise stored carries the same fields.  With the [date] field absent
    the date is the time of the call.  [date="2023-01-01"] reads
    ["Sun Jan 01 2023"] on a host at or east of UTC and
    ["Sat Dec 31 2022"] on a host west of UTC. *)
Theorem exercise_created_response (env : Env) (req : Req.t) (db : Db)
    (user : User.t) (tv : Z) :
  dbFault env UserFindById = false ->
  dbFault env ExerciseSave = false ->
  lookupUser (Req._id (Req.params req)) db = Some user ->
  User.username user <> "" ->
  bodyDate env req = Js.DateAt tv ->
  serve POST_exercises env req db =
    (Some {| statusCode := 200;
             payload := Js.VObject
               [("_id", Js.VObjectId (User._id user));
                ("username", Js.VString (User.username user));
                ("description", Js.of_text (Req.description (Req.body req)));
                ("duration", Js.of_number (Req.duration (Req.body req)));
                ("date", Js.VString (Js.DateString (tv + LocalTZA env tv)))] |},
     {| users := users db;
        exercises := exercises db ++
          [{| Exercise._id := nextId db;
              Exercise.username := User.username user;
              Exercise.description := Req.description (Req.body req);
              Exercise.duration := Req.duration (Req.body req);
              Exercise.date := tv |}];
        nextId := N.succ (nextId db) |})
  /\ (Req.date (Req.body req) = None -> tv = now env)
  /\ (Req.date (Req.body req) = Some "2023-01-01" ->
      (0 <= LocalTZA env tv < Js.msPerDay ->
       Js.DateString (tv + LocalTZA env tv) = "Sun Jan 01 2023")
      /\ (- Js.msPerDay <= LocalTZA env tv < 0 ->
          Js.DateString (tv + LocalTZA env tv) = "Sat Dec 31 2022")).
Proof.
  intros Hfind Hsave Huser Hname Hdate.
  split; [|split].
  - exact (postExercise_created env req db user tv
             Hfind Hsave Huser Hname Hdate).
  - intro Habsent. unfold bodyDate in Hdate. rewrite Habsent in Hdate.
    simpl in Hdate. congruence.
  - intro Hgiven. unfold bodyDate in Hdate. rewrite Hgiven in Hdate.
    assert (Htv : tv = 1672531200000).
    { vm_compute in Hdate. now inversion Hdate. }
    subst tv. split; intro Hzone.
    + rewrite (DateString_same_day _ 1672531200000); [reflexivity|].
      now rewrite day_of_2023_01_01.
    + rewrite (DateString_same_day _ (1672531200000 - 1)); [reflexivity|].
      now rewrite day_before_2023_01_01.
Qed.

(** On the UTC host, for alice and [date="2023-01-01"]. *)
Lemma exercise_created_response_witness :
  fst (serve POST_exercises Sample.utc
         (Sample.newExercise 0%N "walk" 20 (Some "2023-01-01")) Sample.oneRun)
  = Some {| statusCode := 200;
            payload := Js.VObject
              [("_id", Js.VObjectId 0%N);
               ("username", Js.VString "alice");
               ("description", Js.VString "walk");
               ("duration", Js.VNumber (Js.Num 20));
               ("date", Js.VString "Sun Jan 01 2023")] |}.
Proof.
  destruct (exercise_created_response Sample.utc
              (Sample.newExercise 0%N "walk" 20 (Some "2023-01-01"))
              Sample.oneRun Sample.alice 1672531200000
              eq_refl eq_refl eq_refl ltac:(discriminate) eq_refl)
    as (Hserve & _ & _).
  rewrite Hserve. reflexivity.
Defined.

(* ===================================================================== *)
(** ** Creating and listing users *)
(* ===================================================================== *)

(** The save of a user document succeeds exactly when the storage call is
    not rejected and the username is a non-empty text. *)
Lemma UserDoc_save_fulfilled (env : Env) (d : User.Doc) (db : Db)
    (name : string) :
  dbFault env UserSave = false ->
  User.doc_username d = Some name ->
  name <> "" ->
  UserDoc_save env d db =
    (Fulfilled {| User._id := User.doc_id d; User.username := name |},
     setUsers (users db ++
                 [{| User._id := User.doc_id d; User.username := name |}]) db).
Proof.
  intros Hsave Hname Hne. apply String.eqb_neq in Hne.
  unfold UserDoc_save, User.validate. now rewrite Hname, Hne, Hsave.
Qed.

Lemma createUser_created (env : Env) (req : Req.t) (db : Db) (name : string) :
  dbFault env UserSave = false ->
  Req.username (Req.body req) = Some name ->
  name <> "" ->
  serve POST_users env req db =
    (Some (res_json (Js.VObject
       [("username", Js.VString name); ("_id", Js.VObjectId (nextId db))])),
     {| users := users db ++
                   [{| User._id := nextId db; User.username := name |}];
        exercises := exercises db;
        nextId := N.succ (nextId db) |}).
Proof.
  intros Hsave Hname Hne.
  unfold serve, run, handler, createUser, new_User, try_catch, await,
    freshId, resolve.
  rewrite (UserDoc_save_fulfilled env _ _ name Hsave) by (simpl; auto).
  reflexivity.
Qed.

Lemma getUsers_listed (env : Env) (req : Req.t) (db : Db) :
  dbFault env UserFind = false ->
  serve GET_users env req db =
    (Some (res_json (Js.VArray (map User.toJSON (users db)))), db).
Proof.
  intro Hfind.
  open_handler.
  now rewrite Hfind.
Qed.

(** C6.  User creation answers according to how the insert settles: when
    it succeeds, status 200 with the username and id of the record just
    added to the collection; when it fails, status 200 with exactly
    [{error: "Failed to create user"}], and no record is added. *)
Theorem createUser_reports_in_body (env : Env) (req : Req.t) (db : Db) :
  let userDoc :=
    {| User.doc_id := nextId db;
       User.doc_username := Req.username (Req.body req) |} in
  match UserDoc_save env userDoc (snd (freshId db)) with
  | (Fulfilled user, db') =>
      serve POST_users env req db =
        (Some {| statusCode := 200;
                 payload := Js.VObject
                   [("username", Js.VString (User.username user));
                    ("_id", Js.VObjectId (User._id user))] |},
         db')
      /\ users db' = users db ++ [user]
      /\ exercises db' = exercises db
      /\ User._id user = nextId db
      /\ Req.username (Req.body req) = Some (User.username user)
  | (Rejected, db') =>
      serve POST_users env req db =
        (Some {| statusCode := 200;
                 payload := Js.VObject
                   [("error", Js.VString "Failed to create user")] |},
         db')
      /\ users db' = users db
      /\ exercises db' = exercises db
  end.
Proof.
  cbv zeta.
  open_handler. unfold User.validate.
  cbn [snd User.doc_username User.doc_id].
  destruct (Req.username (Req.body req)) as [name|]; [|now auto].
  destruct (name =? "")%string; [now auto|].
  destruct (dbFault env UserSave); now auto.
Qed.

(** C7, as stated, fails for the empty username: the schema requires the
    field, both creations are refused and the listing stays empty. *)
Lemma duplicate_usernames_counterexample :
  let db1 := snd (serve POST_users Sample.utc (Sample.newUser "") emptyDb) in
  let db2 := snd (serve POST_users Sample.utc (Sample.newUser "") db1) in
  fst (serve POST_users Sample.utc (Sample.newUser "") emptyDb)
    = Some (res_json (error "Failed to create user"))
  /\ fst (serve POST_users Sample.utc (Sample.newUser "") db1)
    = Some (res_json (error "Failed to create user"))
  /\ fst (serve GET_users Sample.utc (Sample.newUser "") db2)
    = Some (res_json (Js.VArray [])).
Proof. repeat split. Qed.

(** C7, amended.  No uniqueness is enforced on usernames: for every
    non-empty username, two creations with it that the storage accepts
    both succeed, with distinct ids, and the listing that follows holds
    both records. *)
Theorem duplicate_usernames_allowed (env1 env2 env3 : Env)
    (req1 req2 req3 : Req.t) (db : Db) (name : string) :
  name <> "" ->
  Req.username (Req.body req1) = Some name ->
  Req.username (Req.body req2) = Some name ->
  dbFault env1 UserSave = false ->
  dbFault env2 UserSave = false ->
  dbFault env3 UserFind = false ->
  let db1 := snd (serve POST_users env1 req1 db) in
  let db2 := snd (serve POST_users env2 req2 db1) in
  exists (id1 id2 : ObjectId) (listed : list Js.Value),
    fst (serve POST_users env1 req1 db) =
      Some (res_json (Js.VObject
        [("username", Js.VString name); ("_id", Js.VObjectId id1)]))
    /\ fst (serve POST_users env2 req2 db1) =
      Some (res_json (Js.VObject
        [("username", Js.VString name); ("_id", Js.VObjectId id2)]))
    /\ id1 <> id2
    /\ users db2 =
         users db ++ [{| User._id := id1; User.username := name |};
                      {| User._id := id2; User.username := name |}]
    /\ fst (serve GET_users env3 req3 db2) = Some (res_json (Js.VArray listed))
    /\ In (User.toJSON {| User._id := id1; User.username := name |}) listed
    /\ In (User.toJSON {| User._id := id2; User.username := name |}) listed.
Proof.
  intros Hne Hname1 Hname2 Hsave1 Hsave2 Hfind db1 db2.
  pose proof (createUser_created env1 req1 db name Hsave1 Hname1 Hne) as H1.
  assert (Hdb1 : db1 = snd (serve POST_users env1 req1 db)) by reflexivity.
  rewrite H1 in Hdb1. cbn [snd] in Hdb1.
  pose proof (createUser_created env2 req2 db1 name Hsave2 Hname2 Hne) as H2.
  assert (Hdb2 : db2 = snd (serve POST_users env2 req2 db1)) by reflexivity.
  rewrite H2 in Hdb2. cbn [snd] in Hdb2.
  exists (nextId db), (nextId db1), (map User.toJSON (users db2)).
  rewrite H1, H2, (getUsers_listed env3 req3 db2 Hfind). cbn [fst].
  assert (Husers : users db2 =
            users db ++ [{| User._id := nextId db; User.username := name |};
                         {| User._id := nextId db1; User.username := name |}]).
  { rewrite Hdb2. cbn [users]. rewrite Hdb1 at 1. cbn [users].
    now rewrite <- app_assoc. }
  repeat split.
  - rewrite Hdb1. cbn [nextId]. lia.
  - exact Husers.
  - apply in_map. rewrite Husers. apply in_or_app. right. simpl. auto.
  - apply in_map. rewrite Husers. apply in_or_app. right. simpl. auto.
Qed.

(** Two users named alice on an empty database get the ids 0 and 1. *)
Lemma duplicate_usernames_allowed_witness :
  exists (id1 id2 : ObjectId) (listed : list Js.Value),
    fst (serve POST_users Sample.utc (Sample.newUser "alice") emptyDb) =
      Some (res_json (Js.VObject
        [("username", Js.VString "alice"); ("_id", Js.VObjectId id1)]))
    /\ fst (serve POST_users Sample.utc (Sample.newUser "alice")
              (snd (serve POST_users Sample.utc (Sample.newUser "alice")
                      emptyDb))) =
      Some (res_json (Js.VObject
        [("username", Js.VString "alice"); ("_id", Js.VObjectId id2)]))
    /\ id1 <> id2
    /\ users (snd (serve POST_users Sample.utc (Sample.newUser "alice")
                (snd (serve POST_users Sample.utc (Sample.newUser "alice")
                        emptyDb)))) =
         users emptyDb ++
           [{| User._id := id1; User.username := "alice" |};
            {| User._id := id2; User.username := "alice" |}]
    /\ fst (serve GET_users Sample.utc (Sample.logs 0%N None None None)
              (snd (serve POST_users Sample.utc (Sample.newUser "alice")
                 (snd (serve POST_users Sample.utc (Sample.newUser "alice")
                         emptyDb))))) = Some (res_json (Js.VArray listed))
    /\ In (User.toJSON {| User._id := id1; User.username := "alice" |}) listed
    /\ In (User.toJSON {| User._id := id2; User.username := "alice" |}) listed.
Proof.
  exact (duplicate_usernames_allowed Sample.utc Sample.utc Sample.utc
           (Sample.newUser "alice") (Sample.newUser "alice")
           (Sample.logs 0%N None None None) emptyDb "alice"
           ltac:(discriminate) eq_refl eq_refl eq_refl eq_refl eq_refl).
Defined.

(** C9.  The test [!users] of line 53 never holds, because an array is
    truthy even when empty: [getUsers] never answers the payload
    [{error: "No users found"}]; whatever it answers is an array, and on
    an empty collection it answers the empty array. *)
Theorem getUsers_never_errors (env : Env) (req : Req.t) (db : Db) :
  (forall found : list User.t,
     negb (Js.truthy (Js.VArray (map User.toJSON found))) = false)
  /\ fst (serve GET_users env req db)
     <> Some (res_json (error "No users found"))
  /\ (forall r, fst (serve GET_users env req db) = Some r ->
        r = res_json (Js.VArray (map User.toJSON (users db))))
  /\ (dbFault env UserFind = false -> users db = [] ->
        serve GET_users env req db = (Some (res_json (Js.VArray [])), db)).
Proof.
  split; [reflexivity|].
  open_handler.
  destruct (dbFault env UserFind); cbn.
  - split; [discriminate|]. split; [intros r H; discriminate|].
    intro H. discriminate.
  - split; [discriminate|]. split.
    + intros r H. now inversion H.
    + intros _ Hempty. now rewrite Hempty.
Qed.

(** Listing the users of the empty database. *)
Lemma getUsers_never_errors_witness :
  serve GET_users Sample.utc (Sample.logs 0%N None None None) emptyDb
  = (Some (res_json (Js.VArray [])), emptyDb).
Proof.
  exact (proj2 (proj2 (proj2
           (getUsers_never_errors Sample.utc
              (Sample.logs 0%N None None None) emptyDb)))
           eq_refl eq_refl).
Defined.

(* ===================================================================== *)
(** ** What the operations do to the collections *)
(* ===================================================================== *)

Lemma getUsers_unchanged (env : Env) (req : Req.t) (db : Db) :
  unchanged db (snd (serve GET_users env req db)).
Proof.
  open_handler. unfold unchanged.
  destruct (dbFault env UserFind); cbn; auto.
Qed.

Lemma getLogs_unchanged (env : Env) (req : Req.t) (db : Db) :
  unchanged db (snd (serve GET_logs env req db)).
Proof.
  open_handler. unfold unchanged.
  destruct (dbFault env UserFindById); cbn; auto.
  destruct (isObjectId _); cbn; auto.
  destruct (lookupUser _ db); cbn; auto.
  destruct (queryFrom env req), (queryTo env req); cbn; auto.
  destruct (dbFault env ExerciseFind); cbn; auto.
Qed.

Lemma createUser_appends (env : Env) (req : Req.t) (db : Db) :
  appendsAtMostOneUser db (snd (serve POST_users env req db)).
Proof.
  open_handler. unfold appendsAtMostOneUser.
  destruct (User.validate _) as [u|]; cbn; auto.
  destruct (dbFault env UserSave); cbn; eauto.
Qed.

Lemma postExercise_appends (env : Env) (req : Req.t) (db : Db) :
  appendsAtMostOneExercise db (snd (serve POST_exercises env req db)).
Proof.
  open_handler. unfold appendsAtMostOneExercise.
  destruct (dbFault env UserFindById); cbn; auto.
  destruct (isObjectId _); cbn; auto.
  destruct (lookupUser _ db); cbn; auto.
  destruct (Exercise.validate _) as [e|]; cbn; auto.
  destruct (dbFault env ExerciseSave); cbn; eauto.
Qed.

(** C8.  Whatever the operation, the collections after it are the
    collections before it with at most one document appended: nothing
    stored is changed or removed, only user creation can add a user and
    only exercise creation can add an exercise. *)
Theorem no_update_no_delete (r : Route) (env : Env) (req : Req.t) (db : Db) :
  exists (us : list User.t) (es : list Exercise.t),
    users (snd (serve r env req db)) = users db ++ us
    /\ exercises (snd (serve r env req db)) = exercises db ++ es
    /\ (List.length us + List.length es <= 1)%nat
    /\ (us <> [] -> r = POST_users)
    /\ (es <> [] -> r = POST_exercises).
Proof.
  destruct r.
  - destruct (getUsers_unchanged env req db) as [Hu He].
    exists [], []. rewrite Hu, He, !app_nil_r. cbn. repeat split; auto; tauto.
  - destruct (createUser_appends env req db) as [He [Hu|[u Hu]]].
    + exists [], []. rewrite Hu, He, !app_nil_r. cbn.
      repeat split; auto; tauto.
    + exists [u], []. rewrite Hu, He, !app_nil_r. cbn.
      repeat split; auto; tauto.
  - destruct (postExercise_appends env req db) as [Hu [He|[e He]]].
    + exists [], []. rewrite Hu, He, !app_nil_r. cbn.
      repeat split; auto; tauto.
    + exists [], [e]. rewrite Hu, He, !app_nil_r. cbn.
      repeat split; auto; tauto.
  - destruct (getLogs_unchanged env req db) as [Hu He].
    exists [], []. rewrite Hu, He, !app_nil_r. cbn. repeat split; auto; tauto.
Qed.

(** Over any sequence of requests the stored documents stay in place. *)
Lemma serveAll_only_appends (calls : list (Route * Env * Req.t)) (db : Db) :
  exists (us : list User.t) (es : list Exercise.t),
    users (serveAll calls db) = users db ++ us
    /\ exercises (serveAll calls db) = exercises db ++ es.
Proof.
  revert db. induction calls as [|[[r env] req] calls IH]; intro db; cbn.
  - exists [], []. now rewrite !app_nil_r.
  - destruct (IH (snd (serve r env req db))) as (us & es & Hu & He).
    assert (Hstep : exists us0 es0,
              users (snd (serve r env req db)) = users db ++ us0
              /\ exercises (snd (serve r env req db)) = exercises db ++ es0).
    { destruct r.
      - destruct (getUsers_unchanged env req db) as [Hu0 He0].
        exists [], []. now rewrite Hu0, He0, !app_nil_r.
      - destruct (createUser_appends env req db) as [He0 [Hu0|[u Hu0]]].
        + exists [], []. now rewrite Hu0, He0, !app_nil_r.
        + exists [u], []. now rewrite Hu0, He0, !app_nil_r.
      - destruct (postExercise_appends env req db) as [Hu0 [He0|[e He0]]].
        + exists [], []. now rewrite Hu0, He0, !app_nil_r.
        + exists [], [e]. now rewrite Hu0, He0, !app_nil_r.
      - destruct (getLogs_unchanged env req db) as [Hu0 He0].
        exists [], []. now rewrite Hu0, He0, !app_nil_r. }
    destruct Hstep as (us0 & es0 & Hu0 & He0).
    exists (us0 ++ us), (es0 ++ es).
    now rewrite Hu, He, Hu0, He0, !app_assoc.
Qed.

(* ===================================================================== *)
(** ** Identifiers *)
(* ===================================================================== *)

Lemma idsBelowNext_empty : idsBelowNext emptyDb.
Proof. split; intros x []. Qed.

Lemma idsBelowNext_bump (db : Db) (us : list User.t) (es : list Exercise.t) :
  idsBelowNext db ->
  (forall u, In u us -> In u (users db) \/ User._id u = nextId db) ->
  (forall e, In e es -> In e (exercises db) \/ Exercise._id e = nextId db) ->
  idsBelowNext {| users := us; exercises := es; nextId := N.succ (nextId db) |}.
Proof.
  intros [Hu He] Hus Hes. split; cbn.
  - intros u Hin. destruct (Hus u Hin) as [Hold|Hnew].
    + apply Hu in Hold. lia.
    + lia.
  - intros e Hin. destruct (Hes e Hin) as [Hold|Hnew].
    + apply He in Hold. lia.
    + lia.
Qed.

(** Every operation keeps the stored ids below the counter. *)
Lemma serve_idsBelowNext (r : Route) (env : Env) (req : Req.t) (db : Db) :
  idsBelowNext db -> idsBelowNext (snd (serve r env req db)).
Proof.
  intro Hwf. destruct r.
  - open_handler.
    destruct (dbFault env UserFind); cbn; auto.
  - open_handler. unfold User.validate.
    cbn [User.doc_username User.doc_id].
    destruct (Req.username (Req.body req)) as [name|]; cbn;
      [|apply idsBelowNext_bump; auto].
    destruct (name =? "")%string; cbn; [apply idsBelowNext_bump; auto|].
    destruct (dbFault env UserSave); cbn; apply idsBelowNext_bump; auto.
    intros u Hin. apply in_app_or in Hin.
    destruct Hin as [Hin|[<-|[]]]; auto.
  - open_handler. unfold Exercise.validate.
    destruct (dbFault env UserFindById); cbn; auto.
    destruct (isObjectId _); cbn; auto.
    destruct (lookupUser _ db) as [user|]; cbn; auto.
    destruct (User.username user =? "")%string; cbn;
      [apply idsBelowNext_bump; auto|].
    destruct (bodyDate env req); cbn; [apply idsBelowNext_bump; auto|].
    destruct (dbFault env ExerciseSave); cbn; apply idsBelowNext_bump; auto.
    intros e Hin. apply in_app_or in Hin.
    destruct Hin as [Hin|[<-|[]]]; auto.
  - destruct (getLogs_unchanged env req db) as [Hu He].
    assert (Hn : nextId (snd (serve GET_logs env req db)) = nextId db).
    { open_handler.
      destruct (dbFault env UserFindById); cbn; auto.
      destruct (isObjectId _); cbn; auto.
      destruct (lookupUser _ db); cbn; auto.
      destruct (queryFrom env req), (queryTo env req); cbn; auto.
      destruct (dbFault env ExerciseFind); cbn; auto. }
    destruct Hwf as [Hwu Hwe]. split; rewrite ?Hu, ?He, Hn; auto.
Qed.

(** Every database the API builds from the empty one has its ids below the
    counter. *)
Lemma serveAll_idsBelowNext (calls : list (Route * Env * Req.t)) (db : Db) :
  idsBelowNext db -> idsBelowNext (serveAll calls db).
Proof.
  revert db. induction calls as [|[[r env] req] calls IH]; intros db Hwf; cbn.
  - exact Hwf.
  - apply IH. now apply serve_idsBelowNext.
Qed.

(** Every operation keeps the users' usernames non-empty. *)
Lemma serve_usernamesPresent (r : Route) (env : Env) (req : Req.t) (db : Db) :
  usernamesPresent db -> usernamesPresent (snd (serve r env req db)).
Proof.
  intros Hdb. unfold usernamesPresent. destruct r.
  - now rewrite (proj1 (getUsers_unchanged env req db)).
  - open_handler. unfold User.validate.
    cbn [User.doc_username User.doc_id].
    destruct (Req.username (Req.body req)) as [name|]; cbn; auto.
    destruct (name =? "")%string eqn:Hname; cbn; auto.
    destruct (dbFault env UserSave); cbn; auto.
    intros u Hin. apply in_app_or in Hin. destruct Hin as [Hin|[<-|[]]]; auto.
    cbn. now apply String.eqb_neq.
  - now rewrite (proj1 (postExercise_appends env req db)).
  - now rewrite (proj1 (getLogs_unchanged env req db)).
Qed.

Lemma serveAll_usernamesPresent (calls : list (Route * Env * Req.t))
    (db : Db) :
  usernamesPresent db -> usernamesPresent (serveAll calls db).
Proof.
  revert db. induction calls as [|[[r env] req] calls IH]; intros db Hdb; cbn.
  - exact Hdb.
  - apply IH. now apply serve_usernamesPresent.
Qed.

(** Log entries of exercises that differ in their ids only are equal. *)
Lemma logEntry_sameButId (env : Env) (e1 e2 : Exercise.t) :
  sameButId e1 e2 -> logEntry env e1 = logEntry env e2.
Proof.
  intros (_ & Hd & Hm & Ht). unfold logEntry. now rewrite Hd, Hm, Ht.
Qed.

Lemma matches_sameButId (name : string) (lo hi : Z) (e1 e2 : Exercise.t) :
  sameButId e1 e2 ->
  Exercise.matches name lo hi e1 = Exercise.matches name lo hi e2.
Proof.
  intros (Hn & _ & _ & Ht). unfold Exercise.matches. now rewrite Hn, Ht.
Qed.

Lemma filter_sameButId (env : Env) (name : string) (lo hi : Z)
    (l1 l2 : list Exercise.t) :
  Forall2 sameButId l1 l2 ->
  map (logEntry env) (filter (Exercise.matches name lo hi) l1)
  = map (logEntry env) (filter (Exercise.matches name lo hi) l2).
Proof.
  induction 1 as [|e1 e2 l1 l2 Hsame _ IH]; cbn; [reflexivity|].
  rewrite (matches_sameButId name lo hi e1 e2 Hsame).
  destruct (Exercise.matches name lo hi e2); cbn; [|exact IH].
  now rewrite IH, (logEntry_sameButId env e1 e2 Hsame).
Qed.

(** The responses of two databases that hold the same users and the same
    exercises up to the exercises' ids. *)
Lemma serve_sameButId (r : Route) (env : Env) (req : Req.t) (db1 db2 : Db) :
  users db1 = users db2 ->
  Forall2 sameButId (exercises db1) (exercises db2) ->
  (r = POST_users -> nextId db1 = nextId db2) ->
  fst (serve r env req db1) = fst (serve r env req db2).
Proof.
  intros Hu He Hn. destruct r.
  - open_handler.
    rewrite Hu. destruct (dbFault env UserFind); reflexivity.
  - specialize (Hn eq_refl).
    open_handler. unfold User.validate.
    cbn [User.doc_username User.doc_id]. rewrite Hn.
    destruct (Req.username (Req.body req)) as [name|]; [|reflexivity].
    destruct (name =? "")%string; [reflexivity|].
    destruct (dbFault env UserSave); reflexivity.
  - open_handler. unfold Exercise.validate.
    rewrite (lookupUser_users _ db2 db1 Hu).
    destruct (dbFault env UserFindById); [reflexivity|].
    destruct (isObjectId _); [|reflexivity].
    destruct (lookupUser _ db2) as [user|]; [|reflexivity]. cbn.
    destruct (User.username user =? "")%string; [reflexivity|].
    destruct (bodyDate env req); [reflexivity|].
    destruct (dbFault env ExerciseSave); reflexivity.
  - open_handler.
    rewrite (lookupUser_users _ db2 db1 Hu).
    destruct (dbFault env UserFindById); [reflexivity|].
    destruct (isObjectId _); [|reflexivity].
    destruct (lookupUser _ db2) as [user|]; [|reflexivity]. cbn.
    destruct (queryFrom env req) as [|lo]; [reflexivity|].
    destruct (queryTo env req) as [|hi]; [reflexivity|].
    destruct (dbFault env ExerciseFind); [reflexivity|]. cbn.
    pose proof (filter_sameButId env (User.username user) lo hi _ _ He) as Hlog.
    rewrite Hlog.
    assert (Hlen : List.length
                     (filter (Exercise.matches (User.username user) lo hi)
                        (exercises db1))
                   = List.length
                       (filter (Exercise.matches (User.username user) lo hi)
                          (exercises db2))).
    { rewrite <- (length_map (logEntry env)), Hlog. apply length_map. }
    now rewrite Hlen.
Qed.

(** C10.  A successful exercise creation answers the id of the owning
    user under [_id], which is not the id of the exercise it stored; a log
    entry has the keys description, duration and date only; and no
    response of any endpoint depends on the ids the exercises are stored
    under. *)
Theorem exercise_id_not_exposed :
  (forall (env : Env) (req : Req.t) (db : Db) (user : User.t) (tv : Z),
     dbFault env UserFindById = false ->
     dbFault env ExerciseSave = false ->
     lookupUser (Req._id (Req.params req)) db = Some user ->
     User.username user <> "" ->
     bodyDate env req = Js.DateAt tv ->
     idsBelowNext db ->
     exists (r : Response) (saved : Exercise.t),
       fst (serve POST_exercises env req db) = Some r
       /\ exercises (snd (serve POST_exercises env req db))
          = exercises db ++ [saved]
       /\ Js.keys (payload r)
          = ["_id"; "username"; "description"; "duration"; "date"]
       /\ Js.get "_id" (payload r) = Js.VObjectId (User._id user)
       /\ User._id user <> Exercise._id saved)
  /\ (forall (env : Env) (e : Exercise.t),
        Js.keys (logEntry env e) = ["description"; "duration"; "date"])
  /\ (forall (r : Route) (env : Env) (req : Req.t) (db1 db2 : Db),
        users db1 = users db2 ->
        Forall2 sameButId (exercises db1) (exercises db2) ->
        (r = POST_users -> nextId db1 = nextId db2) ->
        fst (serve r env req db1) = fst (serve r env req db2)).
Proof.
  split; [|split].
  - intros env req db user tv Hfind Hsave Huser Hname Hdate [Hbelow _].
    rewrite (postExercise_created env req db user tv
               Hfind Hsave Huser Hname Hdate).
    eexists. eexists. cbn [fst snd exercises].
    split; [reflexivity|]. split; [reflexivity|].
    split; [reflexivity|]. split; [reflexivity|].
    cbn [Exercise._id]. apply lookupUser_some in Huser.
    destruct Huser as [Hin _]. apply Hbelow in Hin. lia.
  - reflexivity.
  - exact serve_sameButId.
Qed.

(** The diary's single run answers the same log whether it is stored
    under id 1 or 41, and a new exercise for alice answers her id 0 while
    it is stored under id 2. *)
Lemma exercise_id_not_exposed_witness :
  fst (serve GET_logs Sample.utc (Sample.logs 0%N None None None)
         Sample.oneRun)
  = fst (serve GET_logs Sample.utc (Sample.logs 0%N None None None)
           Sample.oneRun')
  /\ exists (r : Response) (saved : Exercise.t),
       fst (serve POST_exercises Sample.utc
              (Sample.newExercise 0%N "walk" 20 None) Sample.oneRun) = Some r
       /\ exercises (snd (serve POST_exercises Sample.utc
                            (Sample.newExercise 0%N "walk" 20 None)
                            Sample.oneRun))
          = exercises Sample.oneRun ++ [saved]
       /\ Js.keys (payload r)
          = ["_id"; "username"; "description"; "duration"; "date"]
       /\ Js.get "_id" (payload r) = Js.VObjectId 0%N
       /\ 0%N <> Exercise._id saved.
Proof.
  destruct exercise_id_not_exposed as (Hcreate & _ & Hsame).
  split.
  - apply Hsame.
    + reflexivity.
    + repeat constructor.
    + discriminate.
  - apply (Hcreate Sample.utc (Sample.newExercise 0%N "walk" 20 None)
             Sample.oneRun Sample.alice 1700000000000
             eq_refl eq_refl eq_refl ltac:(discriminate) eq_refl).
    apply (serveAll_idsBelowNext _ emptyDb idsBelowNext_empty).
Defined.

(* ===================================================================== *)
(** ** Failures *)
(* ===================================================================== *)

(** X1.  A storage call that is rejected in [getUsers], in the exercise
    creation or in the log query only reaches the [catch] block that
    logs: no response is sent and no document is stored. *)
Theorem storage_rejection_sends_nothing (env : Env) (req : Req.t) (db : Db) :
  (dbFault env UserFind = true -> serve GET_users env req db = (None, db))
  /\ (dbFault env UserFindById = true ->
        serve POST_exercises env req db = (None, db)
        /\ serve GET_logs env req db = (None, db))
  /\ (dbFault env UserFindById = false ->
      lookupUser (Req._id (Req.params req)) db <> None ->
        (dbFault env ExerciseFind = true ->
           serve GET_logs env req db = (None, db))
        /\ (dbFault env ExerciseSave = true ->
              fst (serve POST_exercises env req db) = None
              /\ unchanged db (snd (serve POST_exercises env req db)))).
Proof.
  split; [|split].
  - intro H. open_handler. now rewrite H.
  - intro H. split; open_handler; now rewrite H.
  - intros Hlookup Hfound.
    destruct (lookupUser (Req._id (Req.params req)) db) as [user|] eqn:Huser;
      [clear Hfound | contradiction].
    split; intro H; open_handler;
      rewrite Hlookup, (lookupUser_isObjectId _ _ _ Huser), Huser.
    + cbn [Exercise.f_gte Exercise.f_lte].
      destruct (queryFrom env req), (queryTo env req); try reflexivity.
      now rewrite H.
    + destruct (Exercise.validate _); rewrite ?H; unfold unchanged; cbn; auto.
Qed.

(** With the storage down, alice's log and her new exercise get no
    answer. *)
Lemma storage_rejection_sends_nothing_witness :
  serve GET_users Cases.down (Sample.logs 0%N None None None) Sample.diary
    = (None, Sample.diary)
  /\ serve GET_logs Cases.down (Sample.logs 0%N None None None) Sample.diary
    = (None, Sample.diary)
  /\ serve GET_logs Cases.halfDown (Sample.logs 0%N None None None)
       Sample.diary = (None, Sample.diary)
  /\ fst (serve POST_exercises Cases.halfDown
            (Sample.newExercise 0%N "run" 30 None) Sample.diary) = None.
Proof.
  destruct (storage_rejection_sends_nothing Cases.down
              (Sample.logs 0%N None None None) Sample.diary)
    as (Hlist & Hlookup & _).
  destruct (storage_rejection_sends_nothing Cases.halfDown
              (Sample.logs 0%N None None None) Sample.diary)
    as (_ & _ & Hquery).
  destruct (storage_rejection_sends_nothing Cases.halfDown
              (Sample.newExercise 0%N "run" 30 None) Sample.diary)
    as (_ & _ & Hsave).
  split; [exact (Hlist eq_refl)|].
  split; [exact (proj2 (Hlookup eq_refl))|].
  split; [exact (proj1 (Hquery eq_refl ltac:(discriminate)) eq_refl)|].
  exact (proj1 (proj2 (Hsave eq_refl ltac:(discriminate)) eq_refl)).
Defined.

(** X2.  A date the handler cannot parse never reaches the collection or
    the client: an exercise whose [date] text gives an Invalid Date is not
    stored and gets no response, and a log query whose [from] or [to]
    gives an Invalid Date gets no response. *)
Theorem invalid_date_sends_nothing (env : Env) (req : Req.t) (db : Db) :
  dbFault env UserFindById = false ->
  lookupUser (Req._id (Req.params req)) db <> None ->
  (bodyDate env req = Js.InvalidDate ->
     fst (serve POST_exercises env req db) = None
     /\ unchanged db (snd (serve POST_exercises env req db)))
  /\ (queryFrom env req = Js.InvalidDate \/ queryTo env req = Js.InvalidDate ->
        serve GET_logs env req db = (None, db)).
Proof.
  intros Hlookup Hfound.
  destruct (lookupUser (Req._id (Req.params req)) db) as [user|] eqn:Huser;
    [clear Hfound | contradiction].
  split.
  - intro Hdate. open_handler.
    rewrite Hlookup, (lookupUser_isObjectId _ _ _ Huser), Huser, Hdate.
    unfold Exercise.validate. cbn [Exercise.doc_username Exercise.doc_date].
    destruct (User.username user =? "")%string; unfold unchanged; cbn; auto.
  - intro Hbound. open_handler.
    rewrite Hlookup, (lookupUser_isObjectId _ _ _ Huser), Huser.
    cbn [Exercise.f_gte Exercise.f_lte].
    destruct Hbound as [H|H]; rewrite H; [reflexivity|].
    destruct (queryFrom env req); reflexivity.
Qed.

(** The text "someday" is no date on the sample host. *)
Lemma invalid_date_sends_nothing_witness :
  fst (serve POST_exercises Sample.utc
         (Sample.newExercise 0%N "run" 30 (Some "someday")) Sample.diary)
    = None
  /\ serve GET_logs Sample.utc (Sample.logs 0%N (Some "someday") None None)
       Sample.diary = (None, Sample.diary).
Proof.
  split.
  - exact (proj1 (proj1 (invalid_date_sends_nothing Sample.utc
             (Sample.newExercise 0%N "run" 30 (Some "someday")) Sample.diary
             eq_refl ltac:(discriminate)) eq_refl)).
  - exact (proj2 (invalid_date_sends_nothing Sample.utc
             (Sample.logs 0%N (Some "someday") None None) Sample.diary
             eq_refl ltac:(discriminate)) (or_introl eq_refl)).
Defined.

(** X3.  No handler lets a rejection escape, every response carries
    status 200, and the only error payloads are "Failed to create user"
    from user creation and "User not found" from the exercise creation
    and the log query. *)
Theorem every_response_is_200 (r : Route) (env : Env) (req : Req.t) (db : Db) :
  exists (sent : option Response) (db' : Db),
    handler r env req db = (Fulfilled sent, db')
    /\ forall resp, sent = Some resp ->
         statusCode resp = 200
         /\ forall message, payload resp = error message ->
              (r = POST_users /\ message = "Failed to create user")
              \/ ((r = POST_exercises \/ r = GET_logs)
                  /\ message = "User not found").
Proof.
  destruct r; unfold handler; open_handler;
    cbn [Exercise.f_gte Exercise.f_lte];
    handler_cases env req db;
    (eexists; eexists; split; [reflexivity|]);
    intros resp Hsent; try discriminate;
    injection Hsent as <-; (split; [reflexivity|]);
    intros message Hmessage; try discriminate;
    injection Hmessage as <-; auto.
Qed.

(** X4.  User creation answers "Failed to create user", with status 200,
    and stores nothing when the username is absent or the empty text, or
    when the storage rejects the insert. *)
Theorem createUser_fails_when (env : Env) (req : Req.t) (db : Db) :
  Req.username (Req.body req) = None
  \/ Req.username (Req.body req) = Some ""
  \/ dbFault env UserSave = true ->
  fst (serve POST_users env req db)
    = Some {| statusCode := 200;
              payload :=
                Js.VObject [("error", Js.VString "Failed to create user")] |}
  /\ unchanged db (snd (serve POST_users env req db)).
Proof.
  intro Hwhy. open_handler. unfold User.validate, unchanged.
  cbn [User.doc_username User.doc_id].
  destruct (Req.username (Req.body req)) as [name|]; cbn; [|auto].
  destruct (String.eqb_spec name "") as [->|Hname]; cbn; [auto|].
  destruct (dbFault env UserSave); cbn; [auto|].
  destruct Hwhy as [H|[H|H]]; try discriminate. congruence.
Qed.

(** A request with no username at all, on the diary. *)
Lemma createUser_fails_when_witness :
  fst (serve POST_users Sample.utc (Sample.logs 0%N None None None)
         Sample.diary)
    = Some {| statusCode := 200;
              payload :=
                Js.VObject [("error", Js.VString "Failed to create user")] |}
  /\ unchanged Sample.diary
       (snd (serve POST_users Sample.utc (Sample.logs 0%N None None None)
               Sample.diary)).
Proof.
  exact (createUser_fails_when Sample.utc (Sample.logs 0%N None None None)
           Sample.diary (or_introl eq_refl)).
Defined.

(* ===================================================================== *)
(** ** The limit of a log query *)
(* ===================================================================== *)








Lemma firstn_min {A : Type} (k : nat) (l : list A) :
  firstn (Nat.min k (List.length l)) l = firstn k l.
Proof.
  destruct (Nat.le_gt_cases k (List.length l)) as [Hle|Hgt].
  - now rewrite Nat.min_l.
  - rewrite Nat.min_r by lia. rewrite firstn_all.
    symmetry. apply firstn_all2. lia.
Qed.

Lemma ifParam_blank {A : Type} (p : option string) (f : string -> A) (d : A) :
  ifParam (blank p) f d = ifParam p f d.
Proof.
  destruct p as [s|]; [|reflexivity]. unfold blank, ifParam, Js.truthy.
  destruct (s =? "")%string eqn:Hs; cbn; [reflexivity|]. now rewrite Hs.
Qed.

Section Limit.

Variables (env : Env) (req : Req.t) (db : Db) (user : User.t) (lo hi : Z).
Hypothesis lookup_answers : dbFault env UserFindById = false.
Hypothesis find_answers : dbFault env ExerciseFind = false.
Hypothesis user_found :
  lookupUser (Req._id (Req.params req)) db = Some user.
Hypothesis from_valid : queryFrom env req = Js.DateAt lo.
Hypothesis to_valid : queryTo env req = Js.DateAt hi.

(** The log is the first [kept] matches, whatever the limit. *)
Lemma getLogs_kept :
  serve GET_logs env req db =
    (Some (res_json
       (logData user
          (List.length
             (filter (Exercise.matches (User.username user) lo hi)
                     (exercises db)))
          (map (logEntry env)
             (firstn
                (kept (queryLimit req)
                   (List.length
                      (filter (Exercise.matches (User.username user) lo hi)
                              (exercises db))))
                (filter (Exercise.matches (User.username user) lo hi)
                        (exercises db)))))),
     db).
Proof.
  rewrite (getLogs_found env req db user lo hi) by assumption.
  cbv zeta. unfold kept, Js.gt0.
  destruct (queryLimit req) as [|n].
  - now rewrite firstn_all.
  - destruct (Z.ltb_spec 0 n) as [Hpos|Hle].
    + now rewrite slice0_positive, firstn_min, firstn_map by assumption.
    + now rewrite firstn_all.
Qed.

(** X5.  Whatever the [limit] parameter holds, the [log] of the response
    is a prefix of the matching exercises and never longer than its
    [count]: a limit that is not a number, is zero or negative, or is at
    least [count] leaves the log whole. *)
Theorem log_is_prefix_of_matches :
  let matched :=
    filter (Exercise.matches (User.username user) lo hi) (exercises db) in
  let entry (e : Exercise.t) :=
    Js.VObject
      [("description", Js.of_text (Exercise.description e));
       ("duration", Js.of_number (Exercise.duration e));
       ("date", Js.VString (toDateString env (Js.DateAt (Exercise.date e))))] in
  exists shown : nat,
    serve GET_logs env req db =
      (Some {| statusCode := 200;
               payload := Js.VObject
                 [("_id", Js.VObjectId (User._id user));
                  ("username", Js.VString (User.username user));
                  ("count",
                   Js.VNumber (Js.Num (Z.of_nat (List.length matched))));
                  ("log", Js.VArray (map entry (firstn shown matched)))] |},
       db)
    /\ (shown <= List.length matched)%nat
    /\ (queryLimit req = Js.NaN -> shown = List.length matched)
    /\ (forall n, queryLimit req = Js.Num n ->
          n <= 0 \/ Z.of_nat (List.length matched) <= n ->
          shown = List.length matched)
    /\ (forall n, queryLimit req = Js.Num n ->
          0 < n <= Z.of_nat (List.length matched) ->
          shown = Z.to_nat n).
Proof.
  intros matched entry.
  exists (kept (queryLimit req) (List.length matched)).
  split; [exact getLogs_kept|].
  unfold kept. split; [|split; [|split]].
  - destruct (queryLimit req) as [|n]; [lia|].
    destruct (0 <? n); lia.
  - now intros ->.
  - intros n -> Hn. destruct (Z.ltb_spec 0 n); lia.
  - intros n -> Hn. destruct (Z.ltb_spec 0 n); lia.
Qed.


(** X7.  A user none of whose exercises is stored gets a response with
    [count] 0 and an empty [log], whatever the bounds and the limit. *)
Theorem logs_empty_without_exercises :
  (forall e, In e (exercises db) ->
     Exercise.username e <> User.username user) ->
  serve GET_logs env req db =
    (Some {| statusCode := 200;
             payload := Js.VObject
               [("_id", Js.VObjectId (User._id user));
                ("username", Js.VString (User.username user));
                ("count", Js.VNumber (Js.Num 0));
                ("log", Js.VArray [])] |},
     db).
Proof.
  intro Hnone.
  assert (Hempty : filter (Exercise.matches (User.username user) lo hi)
                     (exercises db) = []).
  { induction (exercises db) as [|e l IH]; [reflexivity|]. cbn.
    assert (He : Exercise.matches (User.username user) lo hi e = false).
    { unfold Exercise.matches.
      destruct (String.eqb_spec (Exercise.username e) (User.username user))
        as [Heq|_]; [|reflexivity].
      exfalso. apply (Hnone e); [now left | exact Heq]. }
    rewrite He. apply IH. intros e' Hin. apply Hnone. now right. }
  rewrite getLogs_kept, Hempty. cbn [List.length map]. now rewrite firstn_nil.
Qed.

End Limit.

(** Of alice's five exercises since 1969 a limit of -3 shows all. *)
Lemma log_is_prefix_of_matches_witness :
  exists r,
    fst (serve GET_logs Sample.utc
           (Sample.logs 0%N (Some "1969-01-01") None (Some "-3"))
           Sample.diary) = Some r
    /\ Js.get "count" (payload r) = Js.VNumber (Js.Num 5)
    /\ exists log, Js.get "log" (payload r) = Js.VArray log
                   /\ List.length log = 5%nat.
Proof.
  destruct (log_is_prefix_of_matches Sample.utc
              (Sample.logs 0%N (Some "1969-01-01") None (Some "-3"))
              Sample.diary Sample.alice (-31536000000) 1700000000000
              eq_refl eq_refl eq_refl eq_refl eq_refl)
    as (shown & Hserve & _ & _ & Hall & _).
  rewrite Hserve. rewrite (Hall (-3) eq_refl) by (left; lia).
  eexists. split; [reflexivity|]. split; [reflexivity|].
  eexists. split; reflexivity.
Defined.


(** After alice's account is created and before she logs anything. *)
Lemma logs_empty_without_exercises_witness :
  serve GET_logs Sample.utc (Sample.logs 0%N None None None)
    (snd (serve POST_users Sample.utc (Sample.newUser "alice") emptyDb))
  = (Some {| statusCode := 200;
             payload := Js.VObject
               [("_id", Js.VObjectId 0%N);
                ("username", Js.VString "alice");
                ("count", Js.VNumber (Js.Num 0));
                ("log", Js.VArray [])] |},
     snd (serve POST_users Sample.utc (Sample.newUser "alice") emptyDb)).
Proof.
  apply (logs_empty_without_exercises Sample.utc
           (Sample.logs 0%N None None None)
           (snd (serve POST_users Sample.utc (Sample.newUser "alice") emptyDb))
           Sample.alice
           0 1700000000000 eq_refl eq_refl eq_refl eq_refl eq_refl).
  intros e [].
Defined.

(** X8.  A [from], [to], [limit] or [date] given as the empty text is
    treated as absent: the exercise creation and the log query answer as
    they do for the request without it. *)
Theorem empty_parameters_are_absent (env : Env) (req : Req.t) (db : Db) :
  serve GET_logs env (blankRequest req) db = serve GET_logs env req db
  /\ serve POST_exercises env (blankRequest req) db
     = serve POST_exercises env req db.
Proof.
  assert (Hfrom : queryFrom env (blankRequest req) = queryFrom env req)
    by apply ifParam_blank.
  assert (Hto : queryTo env (blankRequest req) = queryTo env req)
    by apply ifParam_blank.
  assert (Hlimit : queryLimit (blankRequest req) = queryLimit req)
    by apply ifParam_blank.
  assert (Hdate : bodyDate env (blankRequest req) = bodyDate env req)
    by apply ifParam_blank.
  split.
  - unfold serve, handler, getLogs. now rewrite Hfrom, Hto, Hlimit.
  - unfold serve, handler, postExercise. now rewrite Hdate.
Qed.

(* ===================================================================== *)
(** ** Requests that follow one another *)
(* ===================================================================== *)

(** A user appended with an id no stored user has is the one found. *)
Lemma find_appended (id : ObjectId) (l : list User.t) (u : User.t) :
  (forall v, In v l -> User._id v <> id) -> User._id u = id ->
  find (fun v => N.eqb (User._id v) id) (l ++ [u]) = Some u.
Proof.
  intros Hother Hid. induction l as [|v l IH]; cbn.
  - now rewrite (proj2 (N.eqb_eq _ _) Hid).
  - destruct (N.eqb_spec (User._id v) id) as [Heq|_].
    + exfalso. apply (Hother v); [now left | exact Heq].
    + apply IH. intros w Hin. apply Hother. now right.
Qed.



(** X10.  The log belongs to the username, not to the id: two users with
    the same username get the same [count] and the same [log] for the
    same query. *)
Theorem same_username_same_log (env : Env) (req1 req2 : Req.t) (db : Db)
    (user1 user2 : User.t) (lo hi : Z) :
  dbFault env UserFindById = false ->
  dbFault env ExerciseFind = false ->
  lookupUser (Req._id (Req.params req1)) db = Some user1 ->
  lookupUser (Req._id (Req.params req2)) db = Some user2 ->
  User.username user1 = User.username user2 ->
  Req.query req1 = Req.query req2 ->
  queryFrom env req1 = Js.DateAt lo ->
  queryTo env req1 = Js.DateAt hi ->
  exists (count : nat) (log : list Js.Value),
    serve GET_logs env req1 db = (Some (res_json (logData user1 count log)), db)
    /\ serve GET_logs env req2 db
       = (Some (res_json (logData user2 count log)), db).
Proof.
  intros Hlook Hfind Huser1 Huser2 Hname Hquery Hfrom Hto.
  assert (Hfrom2 : queryFrom env req2 = Js.DateAt lo)
    by (unfold queryFrom in *; now rewrite <- Hquery).
  assert (Hto2 : queryTo env req2 = Js.DateAt hi)
    by (unfold queryTo in *; now rewrite <- Hquery).
  assert (Hlimit : queryLimit req2 = queryLimit req1)
    by (unfold queryLimit; now rewrite Hquery).
  eexists. eexists. split.
  - exact (getLogs_kept env req1 db user1 lo hi Hlook Hfind Huser1 Hfrom Hto).
  - rewrite (getLogs_kept env req2 db user2 lo hi) by assumption.
    now rewrite Hlimit, Hname.
Qed.

(** The second alice never logged anything, yet her log shows the first
    alice's run. *)
Lemma same_username_same_log_witness :
  exists (count : nat) (log : list Js.Value),
    serve GET_logs Sample.utc (Sample.logs 0%N None None None) Cases.twins
      = (Some (res_json (logData Sample.alice count log)), Cases.twins)
    /\ serve GET_logs Sample.utc (Sample.logs 1%N None None None) Cases.twins
      = (Some (res_json (logData Cases.alice2 count log)), Cases.twins).
Proof.
  exact (same_username_same_log Sample.utc
           (Sample.logs 0%N None None None) (Sample.logs 1%N None None None)
           Cases.twins Sample.alice Cases.alice2 0 1700000000000
           eq_refl eq_refl eq_refl eq_refl eq_refl eq_refl eq_refl eq_refl).
Defined.

(** X11.  The id a user creation answers identifies that user from then
    on: a later exercise creation or log query whose route parameter is
    the text of that id never answers
    "User not found", and an exercise created with it is answered with
    the username given at creation. *)
Theorem created_user_resolves (env1 env2 : Env) (req1 req2 : Req.t) (db : Db)
    (name : string) :
  idsBelowNext db ->
  name <> "" ->
  Req.username (Req.body req1) = Some name ->
  dbFault env1 UserSave = false ->
  castObjectId (Req._id (Req.params req2)) = Some (nextId db) ->
  dbFault env2 UserFindById = false ->
  let db' := snd (serve POST_users env1 req1 db) in
  fst (serve POST_users env1 req1 db) =
    Some (res_json (Js.VObject
      [("username", Js.VString name); ("_id", Js.VObjectId (nextId db))]))
  /\ fst (serve GET_logs env2 req2 db')
     <> Some (res_json (error "User not found"))
  /\ fst (serve POST_exercises env2 req2 db')
     <> Some (res_json (error "User not found"))
  /\ (dbFault env2 ExerciseSave = false ->
      bodyDate env2 req2 <> Js.InvalidDate ->
      exists r, fst (serve POST_exercises env2 req2 db') = Some r
        /\ Js.get "_id" (payload r) = Js.VObjectId (nextId db)
        /\ Js.get "username" (payload r) = Js.VString name).
Proof.
  intros [Hbelow _] Hname Hgiven Hsave Hid Hlook db'.
  pose proof (createUser_created env1 req1 db name Hsave Hgiven Hname)
    as Hcreated.
  assert (Hdb' : db' = snd (serve POST_users env1 req1 db)) by reflexivity.
  rewrite Hcreated in Hdb'. cbn [snd] in Hdb'.
  assert (Huser : lookupUser (Req._id (Req.params req2)) db'
                  = Some {| User._id := nextId db; User.username := name |}).
  { unfold lookupUser. rewrite Hid, Hdb'. cbn [users].
    apply find_appended; [|reflexivity].
    intros v Hin. apply Hbelow in Hin. lia. }
  assert (Hcast : isObjectId (Req._id (Req.params req2)) = true)
    by (unfold isObjectId; now rewrite Hid).
  split; [now rewrite Hcreated|]. split; [|split].
  - unfold serve, handler. open_handler. rewrite Hlook, Hcast, Huser.
    cbn [Exercise.f_gte Exercise.f_lte].
    destruct (queryFrom env2 req2), (queryTo env2 req2);
      try destruct (dbFault env2 ExerciseFind); discriminate.
  - unfold serve, handler. open_handler. rewrite Hlook, Hcast, Huser.
    destruct (Exercise.validate _);
      try destruct (dbFault env2 ExerciseSave); discriminate.
  - intros Hsave2 Hdate.
    destruct (bodyDate env2 req2) as [|tv] eqn:Hbody; [contradiction|].
    rewrite (postExercise_created env2 req2 db' _ tv Hlook Hsave2 Huser)
      by (cbn; assumption).
    eexists. split; [reflexivity|]. split; reflexivity.
Qed.

(** Carol signs up on the diary, gets id 8 and finds her log with it. *)
Lemma created_user_resolves_witness :
  fst (serve POST_users Sample.utc (Sample.newUser "carol") Sample.diary) =
    Some (res_json (Js.VObject
      [("username", Js.VString "carol"); ("_id", Js.VObjectId 8%N)]))
  /\ fst (serve GET_logs Sample.utc (Sample.logs 8%N None None None)
            (snd (serve POST_users Sample.utc (Sample.newUser "carol")
                    Sample.diary)))
     <> Some (res_json (error "User not found")).
Proof.
  destruct (created_user_resolves Sample.utc Sample.utc
              (Sample.newUser "carol") (Sample.logs 8%N None None None)
              Sample.diary "carol"
              (serveAll_idsBelowNext _ emptyDb idsBelowNext_empty)
              ltac:(discriminate) eq_refl eq_refl eq_refl eq_refl)
    as (Hanswer & Hlogs & _).
  split; [exact Hanswer | exact Hlogs].
Defined.



(* ===================================================================== *)
(** ** What holds of every database the API builds *)
(* ===================================================================== *)

Lemma exercisesOwned_empty : exercisesOwned emptyDb.
Proof. intros e []. Qed.

(** Every operation keeps each exercise with a user of its username. *)
Lemma serve_exercisesOwned (r : Route) (env : Env) (req : Req.t) (db : Db) :
  exercisesOwned db -> exercisesOwned (snd (serve r env req db)).
Proof.
  intro Hdb. unfold exercisesOwned. destruct r.
  - destruct (getUsers_unchanged env req db) as [Hu He]. now rewrite Hu, He.
  - destruct (createUser_appends env req db) as [He [Hu|[u Hu]]];
      rewrite Hu, He; [exact Hdb|].
    intros e Hin. destruct (Hdb e Hin) as (v & Hv & Hname).
    exists v. split; [apply in_or_app; now left | exact Hname].
  - unfold serve, handler. open_handler. unfold Exercise.validate.
    destruct (dbFault env UserFindById); cbn; auto.
    destruct (isObjectId _); cbn; auto.
    destruct (lookupUser _ db) as [user|] eqn:Huser; cbn; auto.
    destruct (User.username user =? "")%string; cbn; auto.
    destruct (bodyDate env req); cbn; auto.
    destruct (dbFault env ExerciseSave); cbn; auto.
    intros e Hin. apply in_app_or in Hin. destruct Hin as [Hin|[<-|[]]]; auto.
    exists user. split; [|reflexivity].
    now apply lookupUser_some in Huser.
  - destruct (getLogs_unchanged env req db) as [Hu He]. now rewrite Hu, He.
Qed.

Lemma serveAll_exercisesOwned (calls : list (Route * Env * Req.t)) (db : Db) :
  exercisesOwned db -> exercisesOwned (serveAll calls db).
Proof.
  revert db. induction calls as [|[[r env] req] calls IH]; intros db Hdb; cbn.
  - exact Hdb.
  - apply IH. now apply serve_exercisesOwned.
Qed.

Lemma usernamesPresent_empty : usernamesPresent emptyDb.
Proof. intros u []. Qed.

(** X13.  No sequence of requests stores a user without a username: in
    every database the API builds, every user has a non-empty
    username. *)
Theorem reachable_usernames_present (db : Db) :
  reachable db -> usernamesPresent db.
Proof.
  intros [calls ->].
  apply serveAll_usernamesPresent, usernamesPresent_empty.
Qed.

Lemma reachable_usernames_present_witness :
  In Sample.bob (users Sample.diary) /\ User.username Sample.bob <> "".
Proof.
  assert (Hin : In Sample.bob (users Sample.diary)) by (vm_compute; auto).
  split; [exact Hin|].
  exact (reachable_usernames_present Sample.diary
           (ex_intro _ _ eq_refl) Sample.bob Hin).
Defined.

(** X14.  No sequence of requests leaves an exercise without an owner: in
    every database the API builds, every exercise carries the username
    of a stored user, which is not empty. *)
Theorem reachable_exercises_owned (db : Db) :
  reachable db ->
  forall e, In e (exercises db) ->
    Exercise.username e <> ""
    /\ exists u, In u (users db) /\ User.username u = Exercise.username e.
Proof.
  intros [calls ->] e Hin.
  destruct (serveAll_exercisesOwned calls emptyDb exercisesOwned_empty e Hin)
    as (u & Hu & Hname).
  split; [|now exists u].
  rewrite <- Hname.
  exact (serveAll_usernamesPresent calls emptyDb usernamesPresent_empty u Hu).
Qed.

Lemma reachable_exercises_owned_witness :
  In Sample.rowing (exercises Sample.diary)
  /\ Exercise.username Sample.rowing <> ""
  /\ exists u, In u (users Sample.diary)
               /\ User.username u = Exercise.username Sample.rowing.
Proof.
  assert (Hin : In Sample.rowing (exercises Sample.diary)) by (vm_compute; auto).
  split; [exact Hin|].
  exact (reachable_exercises_owned Sample.diary
           (ex_intro _ _ eq_refl) Sample.rowing Hin).
Defined.

(* ===================================================================== *)
(** ** Dates given as YYYY-MM-DD *)
(* ===================================================================== *)

Lemma dec_range (c : ascii) (k : Z) : Js.dec c = Some k -> 0 <= k <= 9.
Proof.
  unfold Js.dec.
  destruct (Z.leb_spec 48 (Js.code c)), (Z.leb_spec (Js.code c) 57);
    cbn; intro Hk; inversion Hk; lia.
Qed.

Lemma dec2_range (a b : ascii) (k : Z) :
  Js.dec2 a b = Some k -> 0 <= k <= 99.
Proof.
  unfold Js.dec2.
  destruct (Js.dec a) as [x|] eqn:Ha; [|discriminate].
  destruct (Js.dec b) as [y|] eqn:Hb; [|discriminate].
  intro H. assert (Hk : k = 10 * x + y) by congruence.
  apply dec_range in Ha. apply dec_range in Hb. lia.
Qed.

Lemma dec4_range (a b c d : ascii) (k : Z) :
  Js.dec4 a b c d = Some k -> 0 <= k <= 9999.
Proof.
  unfold Js.dec4.
  destruct (Js.dec2 a b) as [x|] eqn:Hab; [|discriminate].
  destruct (Js.dec2 c d) as [y|] eqn:Hcd; [|discriminate].
  intro H. assert (Hk : k = 100 * x + y) by congruence.
  apply dec2_range in Hab. apply dec2_range in Hcd. lia.
Qed.

(** A text YYYY-MM-DD that names a day of the calendar parses to the UTC
    midnight of that day. *)
Lemma parse_iso_date_isoText (y1 y2 y3 y4 m1 m2 d1 d2 : ascii) (y m d : Z) :
  Js.dec4 y1 y2 y3 y4 = Some y ->
  Js.dec2 m1 m2 = Some m ->
  Js.dec2 d1 d2 = Some d ->
  1 <= m <= 12 ->
  1 <= d <= Js.DaysInMonth y (m - 1) ->
  Js.parse_iso_date (isoText y1 y2 y3 y4 m1 m2 d1 d2)
  = Some (Js.MakeDay y (m - 1) d * Js.msPerDay).
Proof.
  intros Hy Hm Hd Hmonth Hday.
  unfold isoText, Js.parse_iso_date. cbv beta iota.
  rewrite Hy, Hm, Hd.
  replace (1 <=? m) with true by (symmetry; apply Z.leb_le; lia).
  replace (m <=? 12) with true by (symmetry; apply Z.leb_le; lia).
  replace (1 <=? d) with true by (symmetry; apply Z.leb_le; lia).
  replace (d <=? Js.DaysInMonth y (m - 1)) with true
    by (symmetry; apply Z.leb_le; lia).
  reflexivity.
Qed.

Lemma day_of_midnight (k offset : Z) :
  0 <= offset < Js.msPerDay -> Js.Day (k * Js.msPerDay + offset) = k.
Proof.
  unfold Js.Day, Js.msPerDay. intro H. Z.div_mod_to_equations. lia.
Qed.

Lemma day_before_midnight (k offset : Z) :
  - Js.msPerDay <= offset < 0 -> Js.Day (k * Js.msPerDay + offset) = k - 1.
Proof.
  unfold Js.Day, Js.msPerDay. intro H. Z.div_mod_to_equations. lia.
Qed.

(** X15.  An exercise created with a date text YYYY-MM-DD that names a
    day of the calendar is answered, on a host at or east of UTC, with the
    date string of that same day: its weekday, the month's name, the day
    and the year of the text.  On a host west of UTC the answer is the
    date string of the day before. *)
Theorem iso_date_renders_same_day (env : Env) (req : Req.t) (db : Db)
    (user : User.t) (y1 y2 y3 y4 m1 m2 d1 d2 : ascii) (y m d : Z) :
  dbFault env UserFindById = false ->
  dbFault env ExerciseSave = false ->
  lookupUser (Req._id (Req.params req)) db = Some user ->
  User.username user <> "" ->
  Req.date (Req.body req) = Some (isoText y1 y2 y3 y4 m1 m2 d1 d2) ->
  Js.dec4 y1 y2 y3 y4 = Some y ->
  Js.dec2 m1 m2 = Some m ->
  Js.dec2 d1 d2 = Some d ->
  1 <= m <= 12 ->
  1 <= d <= Js.DaysInMonth y (m - 1) ->
  let tv := Js.MakeDay y (m - 1) d * Js.msPerDay in
  exists r, fst (serve POST_exercises env req db) = Some r
    /\ (0 <= LocalTZA env tv < Js.msPerDay ->
        Js.get "date" (payload r) =
          Js.VString
            (Js.day_name (Js.WeekDay tv) ++ " " ++ Js.month_name (m - 1)
             ++ " " ++ Js.padded d 2 ++ " " ++ Js.padded y 4)%string)
    /\ (- Js.msPerDay <= LocalTZA env tv < 0 ->
        Js.get "date" (payload r)
        = Js.VString (Js.DateString (tv - Js.msPerDay))).
Proof.
  intros Hlook Hsave Huser Hname Hdate Hy Hm Hd Hmonth Hday tv.
  assert (Hbody : bodyDate env req = Js.DateAt tv).
  { unfold bodyDate, ifParam, newDate. rewrite Hdate.
    rewrite (parse_iso_date_isoText _ _ _ _ _ _ _ _ y m d) by assumption.
    reflexivity. }
  rewrite (postExercise_created env req db user tv) by assumption.
  eexists. split; [reflexivity|].
  cbn [fst payload res_json exerciseResponse Js.get Js.lookup String.eqb
       Ascii.eqb Bool.eqb Exercise.date toDateString].
  split; intro Hzone.
  - f_equal.
    rewrite (DateString_same_day _ tv)
      by (unfold tv at 1; rewrite day_of_midnight by assumption;
          unfold tv, Js.Day; now rewrite Z.div_mul by discriminate).
    destruct (MakeDay_roundtrip y (m - 1) d ltac:(lia) Hday)
      as (HY & HM & HD).
    fold tv in HY, HM, HD.
    apply dec4_range in Hy.
    unfold Js.DateString. rewrite HY, HM, HD.
    destruct (Z.ltb_spec y 0); [lia|].
    now rewrite Z.abs_eq by lia.
  - f_equal. apply DateString_same_day.
    unfold tv at 1. rewrite day_before_midnight by assumption.
    replace (tv - Js.msPerDay)
      with ((Js.MakeDay y (m - 1) d - 1) * Js.msPerDay + 0)
      by (unfold tv; lia).
    rewrite day_of_midnight; [reflexivity|]. unfold Js.msPerDay. lia.
Qed.

(** A leap day, on the UTC host and five hours west of it. *)
Lemma iso_date_renders_same_day_witness :
  (exists r,
     fst (serve POST_exercises Sample.utc
            (Sample.newExercise 0%N "run" 30 (Some "2024-02-29"))
            Sample.diary) = Some r
     /\ Js.get "date" (payload r) = Js.VString "Thu Feb 29 2024")
  /\ (exists r,
        fst (serve POST_exercises Sample.west
               (Sample.newExercise 0%N "run" 30 (Some "2024-02-29"))
               Sample.diary) = Some r
        /\ Js.get "date" (payload r) = Js.VString "Wed Feb 28 2024").
Proof.
  split.
  - destruct (iso_date_renders_same_day Sample.utc
                (Sample.newExercise 0%N "run" 30 (Some "2024-02-29"))
                Sample.diary Sample.alice
                "2" "0" "2" "4" "0" "2" "2" "9" 2024 2 29
                eq_refl eq_refl eq_refl ltac:(discriminate) eq_refl
                eq_refl eq_refl eq_refl ltac:(lia)
                ltac:(vm_compute; split; discriminate))
      as (r & Hr & Heast & _).
    exists r. split; [exact Hr|].
    rewrite Heast by (vm_compute; split; [discriminate | reflexivity]).
    reflexivity.
  - destruct (iso_date_renders_same_day Sample.west
                (Sample.newExercise 0%N "run" 30 (Some "2024-02-29"))
                Sample.diary Sample.alice
                "2" "0" "2" "4" "0" "2" "2" "9" 2024 2 29
                eq_refl eq_refl eq_refl ltac:(discriminate) eq_refl
                eq_refl eq_refl eq_refl ltac:(lia)
                ltac:(vm_compute; split; discriminate))
      as (r & Hr & _ & Hwest).
    exists r. split; [exact Hr|].
    rewrite Hwest by (vm_compute; split; [discriminate | reflexivity]).
    reflexivity.
Defined.
